(** * recoup: cost allocation models (recoup/models.py, recoup/admin.py)

    A shallow embedding of the cost propagation and aggregation code of
    the [recoup] application, and the properties its specification states
    about it.

    Layout:
    - [result]: exceptions as values;
    - [decimal]: Python's [decimal.Decimal] under the default context
      (28 significant digits, ROUND_HALF_EVEN, traps enabled);
    - [orm]: the persistent store, rows, querysets, aggregates;
    - [models]: recoup/models.py;
    - [admin]: the allocation filter of recoup/admin.py;
    - [scenario]: concrete stores and rows;
    - [spec]: the vocabulary of the properties, worded after the
      specification and independent of the accessors of [models];
    - [fixpoint]: notions relative to the derivation as the code has it;
    - theorems. *)

From Stdlib Require Import ZArith List Bool String Lia.
Import ListNotations.
Open Scope Z_scope.

(** ** Exceptions *)

(** The conditions under which [decimal.InvalidOperation] is raised by
    the operations used here. *)
Inductive condition :=
| DivisionUndefined      (* 0 / 0 *)
| TooManyDigits.         (* quantize result does not fit the precision *)

Inductive exception :=
| DivisionByZero                         (* decimal.DivisionByZero: x / 0, x <> 0 *)
| InvalidOperation (c : condition)       (* decimal.InvalidOperation *)
| AttributeError                         (* attribute access on None *)
| TypeError                              (* call of a non-callable attribute *)
| DoesNotExist                           (* related row missing *)
| IntegrityError.                        (* a foreign key that names no stored row *)

Inductive result (A : Type) :=
| Ok (a : A)
| Raise (e : exception).
Arguments Ok {A} a.
Arguments Raise {A} e.

Definition bind {A B} (m : result A) (k : A -> result B) : result B :=
  match m with
  | Ok a => k a
  | Raise e => Raise e
  end.

Declare Scope result_scope.
Delimit Scope result_scope with result.
Notation "x <- m ;; k" := (bind m (fun x => k))
  (at level 100, m at next level, right associativity) : result_scope.
Open Scope result_scope.

(** ** decimal.Decimal *)

Module decimal.

(** A finite decimal number [coef * 10 ^ exp].  The sign is carried by the
    coefficient, so the sign of a zero is not represented; the exponent
    limits Emin and Emax of the context are far outside every value that
    occurs and are not represented either. *)
Record Decimal := mkDecimal { coef : Z; exp : Z }.

(** [Decimal(n)] for an int [n]: exact. *)
Definition of_int (n : Z) : Decimal := mkDecimal n 0.

(** Default context precision. *)
Definition prec : Z := 28.

Fixpoint ndigits_aux (fuel : nat) (n : Z) : Z :=
  match fuel with
  | O => 1
  | S f => if n <? 10 then 1 else 1 + ndigits_aux f (n / 10)
  end.

(** [len(self._int)]: number of decimal digits of the coefficient. *)
Definition ndigits (n : Z) : Z :=
  ndigits_aux (Z.to_nat (Z.log2 (Z.abs n))) (Z.abs n).

(** [self.adjusted()]: exponent of the most significant digit. *)
Definition adjusted (d : Decimal) : Z := exp d + ndigits (coef d) - 1.

(** Drop the [k] low digits of [n], rounding half to even. *)
Definition round_half_even (n k : Z) : Z :=
  let p := 10 ^ k in
  let m := Z.abs n in
  let q := m / p in
  let r := m mod p in
  let q' := if (2 * r >? p) || ((2 * r =? p) && Z.odd q) then q + 1 else q in
  Z.sgn n * q'.

(** [self._rescale(e, ROUND_HALF_EVEN)]. *)
Definition rescale (d : Decimal) (e : Z) : Decimal :=
  if e <=? exp d
  then mkDecimal (coef d * 10 ^ (exp d - e)) e
  else mkDecimal (round_half_even (coef d) (e - exp d)) e.

(** [self._fix(context)] at precision [p]: round to at most [p] digits. *)
Definition fix_prec (p : Z) (d : Decimal) : Decimal :=
  let n := ndigits (coef d) in
  if n <=? p then d
  else
    let d1 := rescale d (exp d + (n - p)) in
    if ndigits (coef d1) >? p
    then mkDecimal (Z.quot (coef d1) 10) (exp d1 + 1)
    else d1.

Definition fix_ (d : Decimal) : Decimal := fix_prec prec d.

(** [bool(d)] is false exactly for zeros; [d == Decimal(0)]. *)
Definition is_zero (d : Decimal) : bool := coef d =? 0.

(** Numeric comparison. *)
Definition compare (a b : Decimal) : comparison :=
  let m := Z.min (exp a) (exp b) in
  Z.compare (coef a * 10 ^ (exp a - m)) (coef b * 10 ^ (exp b - m)).

Definition eqb (a b : Decimal) : bool :=
  match compare a b with Eq => true | _ => false end.
Definition ltb (a b : Decimal) : bool :=
  match compare a b with Lt => true | _ => false end.
Definition gtb (a b : Decimal) : bool :=
  match compare a b with Gt => true | _ => false end.

(** Exact sum, as computed by the store's SUM over a numeric column. *)
Definition add_exact (a b : Decimal) : Decimal :=
  let m := Z.min (exp a) (exp b) in
  mkDecimal (coef a * 10 ^ (exp a - m) + coef b * 10 ^ (exp b - m)) m.

(** [a + b]. *)
Definition add (a b : Decimal) : Decimal := fix_ (add_exact a b).

(** [a * b]. *)
Definition mul (a b : Decimal) : Decimal :=
  fix_ (mkDecimal (coef a * coef b) (exp a + exp b)).

(** The loop of [__truediv__] that brings an exact quotient as close to
    the ideal exponent as it can. *)
Fixpoint strip_zeros (fuel : nat) (c e : Z) : Z * Z :=
  match fuel with
  | O => (c, e)
  | S f => if c mod 10 =? 0 then strip_zeros f (c / 10) (e + 1) else (c, e)
  end.

(** [a / b]. *)
Definition div (a b : Decimal) : result Decimal :=
  if is_zero b then
    if is_zero a then Raise (InvalidOperation DivisionUndefined)
    else Raise DivisionByZero
  else if is_zero a then Ok (fix_ (mkDecimal 0 (exp a - exp b)))
  else
    let sign := Z.sgn (coef a) * Z.sgn (coef b) in
    let ca := Z.abs (coef a) in
    let cb := Z.abs (coef b) in
    let shift := ndigits cb - ndigits ca + prec + 1 in
    let e := exp a - exp b - shift in
    let '(q, r) :=
      if 0 <=? shift
      then Z.div_eucl (ca * 10 ^ shift) cb
      else Z.div_eucl ca (cb * 10 ^ (- shift)) in
    if r =? 0 then
      let ideal := exp a - exp b in
      let '(q', e') := strip_zeros (Z.to_nat (ideal - e)) q e in
      Ok (fix_ (mkDecimal (sign * q') e'))
    else
      let q' := if q mod 5 =? 0 then q + 1 else q in
      Ok (fix_ (mkDecimal (sign * q') e)).

(** [d.quantize(Decimal(1).scaleb(e))] in a context of precision [p]. *)
Definition quantize (p : Z) (d : Decimal) (e : Z) : result Decimal :=
  if is_zero d then Ok (mkDecimal 0 e)
  else if adjusted d - e + 1 >? p then Raise (InvalidOperation TooManyDigits)
  else
    let a := rescale d e in
    if ndigits (coef a) >? p then Raise (InvalidOperation TooManyDigits)
    else Ok a.

(** [round(d, n)]. *)
Definition round (d : Decimal) (n : Z) : result Decimal :=
  quantize prec d (- n).

End decimal.

Import decimal.

(** A Python number as the code handles them: an [int] or a [Decimal]. *)
Inductive number :=
| PyInt (n : Z)
| PyDecimal (d : Decimal).

(** [Decimal(x)]. *)
Definition Decimal_of (x : number) : Decimal :=
  match x with
  | PyInt n => of_int n
  | PyDecimal d => d
  end.

(** [for x in l: acc = f(acc, x)], stopping at the first exception. *)
Fixpoint foldM {A B} (f : B -> A -> result B) (l : list A) (acc : B) : result B :=
  match l with
  | [] => Ok acc
  | x :: l' => acc' <- f acc x ;; foldM f l' acc'
  end.

(** ** The store *)

Module orm.

(** A [date], as its proleptic Gregorian ordinal ([date.toordinal()]). *)
Definition date := Z.

Record FinancialYear := mkFinancialYear {
  fy_pk : Z;
  fy_start : date;
  fy_end : date
}.

Record Contract := mkContract {
  contract_pk : Z;
  vendor : string;
  brand : string;
  reference : string;
  invoice_period : string;
  contract_start : date;
  contract_end : option date;
  contract_active : bool
}.

Record Bill := mkBill {
  bill_pk : Z;
  bill_contract : Z;
  bill_name : string;
  bill_description : string;
  bill_comment : string;
  bill_quantity : string;
  bill_year : Z;
  renewal_date : option date;
  bill_cost : Decimal;
  bill_cost_estimate : Decimal;
  bill_active : bool
}.

Record ServicePool := mkServicePool {
  sp_pk : Z;
  sp_name : string
}.

(** [Cost] is a concrete model; [EndUserCost] and [ITPlatformCost] extend
    its row with one foreign key each. *)
Inductive CostKind :=
| PlainCost
| EndUserCost (service : Z)
| ITPlatformCost (platform : Z).

Record Cost := mkCost {
  cost_pk : Z;
  cost_name : string;
  cost_bill : Z;
  percentage : Decimal;
  service_pool : Z;
  cost_cost : Decimal;
  cost_cost_estimate : Decimal;
  cost_kind : CostKind
}.

Record Division := mkDivision {
  division_pk : Z;
  division_name : string;
  user_count : Z;
  cc_count : Z;
  division_system_count : Z
}.

Record EndUserService := mkEndUserService {
  eus_pk : Z;
  eus_name : string
}.

Record Platform := mkPlatform {
  platform_pk : Z;
  platform_name : string;
  system_count : Z
}.

Record ITSystem := mkITSystem {
  its_pk : Z;
  system_id : string;
  cost_centre : string;
  its_name : string;
  its_division : Z
}.

(** [weighting], a float that no computation reads, is not carried. *)
Record SystemDependency := mkSystemDependency {
  sd_pk : Z;
  sd_system : Z;
  sd_platform : Z
}.

(** The tables.  A list holds the rows of a table in some order, which is
    the order in which a queryset over the table is iterated unless
    [order_by] is applied to it; every property below holds whatever
    that order is.  [enduserservice_divisions] is the join table of
    [EndUserService.divisions], pairs (service, division). *)
Record DB := mkDB {
  financialyears : list FinancialYear;
  contracts : list Contract;
  bills : list Bill;
  servicepools : list ServicePool;
  costs : list Cost;
  divisions : list Division;
  enduserservices : list EndUserService;
  enduserservice_divisions : list (Z * Z);
  platforms : list Platform;
  itsystems : list ITSystem;
  systemdependencies : list SystemDependency
}.

Definition set_bills (db : DB) (l : list Bill) : DB :=
  mkDB (financialyears db) (contracts db) l (servicepools db) (costs db)
       (divisions db) (enduserservices db) (enduserservice_divisions db)
       (platforms db) (itsystems db) (systemdependencies db).

Definition set_costs (db : DB) (l : list Cost) : DB :=
  mkDB (financialyears db) (contracts db) (bills db) (servicepools db) l
       (divisions db) (enduserservices db) (enduserservice_divisions db)
       (platforms db) (itsystems db) (systemdependencies db).

Definition set_platforms (db : DB) (l : list Platform) : DB :=
  mkDB (financialyears db) (contracts db) (bills db) (servicepools db) (costs db)
       (divisions db) (enduserservices db) (enduserservice_divisions db)
       l (itsystems db) (systemdependencies db).

Definition set_systemdependencies (db : DB) (l : list SystemDependency) : DB :=
  mkDB (financialyears db) (contracts db) (bills db) (servicepools db) (costs db)
       (divisions db) (enduserservices db) (enduserservice_divisions db)
       (platforms db) (itsystems db) l.

Section Tables.
Context {A : Type} (pk : A -> Z).

  (** [objects.get(pk=k)]. *)
Definition get (rows : list A) (k : Z) : result A :=
    match find (fun r => pk r =? k) rows with
    | Some r => Ok r
    | None => Raise DoesNotExist
    end.

  (** The write of [Model.save()]: UPDATE the rows with this primary key,
      INSERT when there is none. *)
Definition write (rows : list A) (x : A) : list A :=
    if existsb (fun r => pk r =? pk x) rows
    then map (fun r => if pk r =? pk x then x else r) rows
    else rows ++ [x].

  (** A foreign-key constraint on a write: the key names a stored row. *)
Definition references (rows : list A) (k : Z) : result unit :=
    if existsb (fun r => pk r =? k) rows then Ok tt else Raise IntegrityError.

  (** [order_by(key)]: a stable sort on an integer key. *)
Fixpoint insert_by (key : A -> Z) (x : A) (l : list A) : list A :=
    match l with
    | [] => [x]
    | y :: l' => if key x <=? key y then x :: l else y :: insert_by key x l'
    end.

Definition order_by (key : A -> Z) (l : list A) : list A :=
    fold_right (insert_by key) [] l.

  (** [first()]. *)
Definition first (l : list A) : option A := hd_error l.
End Tables.

(** [aggregate(Sum(field))] over a numeric column: exact, NULL on no rows. *)
Definition Sum (col : list Decimal) : option Decimal :=
  match col with
  | [] => None
  | x :: col' => Some (fold_left add_exact col' x)
  end.

(** The same over an integer column. *)
Definition Sum_int (col : list Z) : option Z :=
  match col with
  | [] => None
  | x :: col' => Some (fold_left Z.add col' x)
  end.

(** [DecimalField(max_digits, decimal_places=2).get_db_prep_save]: the
    value is quantized to two places in a context of [max_digits] digits. *)
Definition db_prep (max_digits : Z) (value : Decimal) : result Decimal :=
  quantize max_digits value (-2).

(** The signal receivers.  A model's hook is [None] when the class does
    not define it ([hasattr] is false). *)
Definition pre_save_hook {A} (pre_save : option (A -> result A))
    (raw : bool) (instance : A) : result A :=
  if raw then Ok instance
  else match pre_save with
       | Some f => f instance
       | None => Ok instance
       end.

Definition post_save_hook {A} (post_save : option (DB -> A -> result DB))
    (raw : bool) (db : DB) (instance : A) : result DB :=
  if raw then Ok db
  else match post_save with
       | Some f => f db instance
       | None => Ok db
       end.

(** [Model.save_base]: pre_save signal, write, post_save signal. *)
Definition save_base {A} (pre_save : option (DB -> A -> result A))
    (store : DB -> A -> result DB)
    (post_save : option (DB -> A -> result DB))
    (raw : bool) (db : DB) (instance : A) : result DB :=
  instance' <- pre_save_hook (option_map (fun f => f db) pre_save) raw instance ;;
  db' <- store db instance' ;;
  post_save_hook post_save raw db' instance'.

End orm.

Import orm.

(** ** recoup/models.py *)

Module models.

(** [field_sum(queryset, fieldname)] over a decimal column: the store's
    sum, or [Decimal(0)] when that is None or zero. *)
Definition field_sum (col : list Decimal) : Decimal :=
  match Sum col with
  | Some s => if is_zero s then of_int 0 else s
  | None => of_int 0
  end.

(** [field_sum] over an integer column: an int, or [Decimal(0)]. *)
Definition field_sum_int (col : list Z) : number :=
  match Sum_int col with
  | Some s => if s =? 0 then PyDecimal (of_int 0) else PyInt s
  | None => PyDecimal (of_int 0)
  end.

(** *** CostSummary *)

(** The abstract base: what a subclass may override. *)
Class CostSummary (M : Type) := {
  cost : DB -> M -> result Decimal;
  cost_estimate : DB -> M -> result Decimal
}.

(** [CostSummary.cost] and [cost_estimate] as inherited, over the rows of
    the subclass's [get_cost_queryset]. *)
Section Inherited.
Context {M R : Type}.
Variable get_cost_queryset : DB -> M -> list R.
Variables cost_field cost_estimate_field : R -> Decimal.

Definition inherited_cost (db : DB) (self : M) : result Decimal :=
  Ok (field_sum (map cost_field (get_cost_queryset db self))).

Definition inherited_cost_estimate (db : DB) (self : M) : result Decimal :=
  Ok (field_sum (map cost_estimate_field (get_cost_queryset db self))).

Definition inherited : CostSummary M :=
  {| cost := inherited_cost; cost_estimate := inherited_cost_estimate |}.
End Inherited.

(** *** Contract, FinancialYear *)

Definition Contract_get_cost_queryset (db : DB) (self : Contract) : list Bill :=
  filter (fun b => (bill_contract b =? contract_pk self) && bill_active b) (bills db).

#[export] Instance Contract_CostSummary : CostSummary Contract :=
  inherited Contract_get_cost_queryset bill_cost bill_cost_estimate.

Definition FinancialYear_get_cost_queryset (db : DB) (self : FinancialYear) : list Bill :=
  filter (fun b => bill_year b =? fy_pk self) (bills db).

#[export] Instance FinancialYear_CostSummary : CostSummary FinancialYear :=
  inherited FinancialYear_get_cost_queryset bill_cost bill_cost_estimate.

(** [CostSummary.year]: [FinancialYear.objects.first()], under the
    model's [ordering = ("end",)]. *)
Definition year (db : DB) : option FinancialYear :=
  first (order_by fy_end (financialyears db)).

Definition cost_percentage {M} `{CostSummary M} (db : DB) (self : M) : result number :=
  match year db with
  | None => Raise AttributeError
  | Some y =>
      year_cost <- cost db y ;;
      if decimal.eqb year_cost (of_int 0) then Ok (PyInt 0)
      else
        c <- cost db self ;;
        q <- div c year_cost ;;
        r <- round (mul q (of_int 100)) 2 ;;
        Ok (PyDecimal r)
  end.

Definition cost_estimate_percentage {M} `{CostSummary M} (db : DB) (self : M) : result number :=
  match year db with
  | None => Raise AttributeError
  | Some y =>
      year_cost_est <- cost_estimate db y ;;
      if decimal.eqb year_cost_est (of_int 0) then Ok (PyInt 0)
      else
        c <- cost_estimate db self ;;
        q <- div c year_cost_est ;;
        r <- round (mul q (of_int 100)) 2 ;;
        Ok (PyDecimal r)
  end.

(** ServicePool, ITSystem and SystemDependency override nothing: their
    queryset is [self.__class__.objects.none()], over rows of their own
    class.  No property below depends on them, and they are given no
    instance here. *)

(** *** Bill *)

(** [self.cost_items.all()]. *)
Definition cost_items (db : DB) (self : Bill) : list Cost :=
  filter (fun c => cost_bill c =? bill_pk self) (costs db).

(** [field_sum(...) or 0]. *)
Definition Bill_allocated (db : DB) (self : Bill) : number :=
  let s := field_sum (map percentage (cost_items db self)) in
  if is_zero s then PyInt 0 else PyDecimal s.

(** *** Cost *)

Definition set_cost (self : Cost) (v : Decimal) : Cost :=
  mkCost (cost_pk self) (cost_name self) (cost_bill self) (percentage self)
         (service_pool self) v (cost_cost_estimate self) (cost_kind self).

Definition set_cost_estimate (self : Cost) (v : Decimal) : Cost :=
  mkCost (cost_pk self) (cost_name self) (cost_bill self) (percentage self)
         (service_pool self) (cost_cost self) v (cost_kind self).

Definition set_percentage (self : Cost) (v : Decimal) : Cost :=
  mkCost (cost_pk self) (cost_name self) (cost_bill self) v
         (service_pool self) (cost_cost self) (cost_cost_estimate self) (cost_kind self).

(** [Cost.pre_save], with [bill] the object [self.bill] evaluates to.
    The literal [0] is the field's [Decimal(0)]. *)
Definition Cost_pre_save (bill : Bill) (self : Cost) : result Cost :=
  let self :=
    if negb (bill_active bill)
    then set_cost_estimate (set_cost self (of_int 0)) (of_int 0)
    else self in
  c <- div (mul (bill_cost bill) (percentage self)) (of_int 100) ;;
  let self := set_cost self c in
  ce <- div (mul (bill_cost_estimate bill) (percentage self)) (of_int 100) ;;
  Ok (set_cost_estimate self ce).

(** The [cost] and [cost_estimate] attributes of a Cost are its fields,
    which shadow the inherited methods: calling them is a TypeError. *)
#[export] Instance Cost_CostSummary : CostSummary Cost :=
  {| cost := fun _ _ => Raise TypeError;
     cost_estimate := fun _ _ => Raise TypeError |}.

(** An instance of Cost is a row together with the related objects
    cached on it, of which the code reads one, the bill.  [cached] is
    the Bill object that the instance holds (after [Cost(bill=b)] or
    [cost.bill = b], or once [cost.bill] has been read), and [None] for
    an instance as a queryset yields it.  [self.bill] is the cached
    object and, without one, the stored bill of key [bill_id]; it raises
    DoesNotExist when there is none. *)
Definition Cost_bill (db : DB) (cached : option Bill) (self : Cost) : result Bill :=
  match cached with
  | Some bill => Ok bill
  | None => get bill_pk (bills db) (cost_bill self)
  end.

(** The signal handler's call [instance.pre_save()]. *)
Definition Cost_pre_save_signal (cached : option Bill) (db : DB) (self : Cost) :
    result Cost :=
  bill <- Cost_bill db cached self ;;
  Cost_pre_save bill self.

(** The row of a Cost as it is written.  The three decimal fields are
    prepared for their columns first; the write is then refused with an
    IntegrityError when no bill of key [bill_id] is stored.  The rows
    that the service pool, the service and the platform of the instance
    name are taken to be stored. *)
Definition Cost_store (db : DB) (self : Cost) : result DB :=
  p <- db_prep 5 (percentage self) ;;
  c <- db_prep 12 (cost_cost self) ;;
  ce <- db_prep 12 (cost_cost_estimate self) ;;
  _ <- references bill_pk (bills db) (cost_bill self) ;;
  Ok (set_costs db
        (write cost_pk (costs db)
           (set_cost_estimate (set_cost (set_percentage self p) c) ce))).

(** [cost.save()] on an instance whose bill object is [cached].  Of the
    saves of a Cost only this one, which dispatches the signals, is
    modelled: a raw save of a subclass instance writes the table of the
    subclass and not the Cost table. *)
Definition Cost_save_cached (cached : option Bill) : DB -> Cost -> result DB :=
  save_base (Some (Cost_pre_save_signal cached)) Cost_store None false.

(** [cost.save()] on an instance as a queryset yields it, which is how
    the cascade of a bill saves its rows. *)
Definition Cost_save : DB -> Cost -> result DB := Cost_save_cached None.

Definition is_EndUserCost (c : Cost) : bool :=
  match cost_kind c with EndUserCost _ => true | _ => false end.

Definition is_ITPlatformCost (c : Cost) : bool :=
  match cost_kind c with ITPlatformCost _ => true | _ => false end.

(** [EndUserCost.objects.filter(bill=self)]. *)
Definition EndUserCost_filter_bill (db : DB) (self : Bill) : list Cost :=
  filter (fun c => (cost_bill c =? bill_pk self) && is_EndUserCost c) (costs db).

(** [ITPlatformCost.objects.filter(bill=self)]. *)
Definition ITPlatformCost_filter_bill (db : DB) (self : Bill) : list Cost :=
  filter (fun c => (cost_bill c =? bill_pk self) && is_ITPlatformCost c) (costs db).

(** [Bill.post_save]: each queryset is evaluated when its loop starts.
    (The method's first statement builds [self.cost_items.all()] and
    never evaluates it.) *)
Definition Bill_post_save (db : DB) (self : Bill) : result DB :=
  db <- foldM Cost_save (EndUserCost_filter_bill db self) db ;;
  foldM Cost_save (ITPlatformCost_filter_bill db self) db.

Definition set_bill_costs (self : Bill) (c ce : Decimal) : Bill :=
  mkBill (bill_pk self) (bill_contract self) (bill_name self)
         (bill_description self) (bill_comment self) (bill_quantity self)
         (bill_year self) (renewal_date self) c ce (bill_active self).

Definition Bill_store (db : DB) (self : Bill) : result DB :=
  c <- db_prep 12 (bill_cost self) ;;
  ce <- db_prep 12 (bill_cost_estimate self) ;;
  Ok (set_bills db (write bill_pk (bills db) (set_bill_costs self c ce))).

Definition Bill_save_base : bool -> DB -> Bill -> result DB :=
  save_base None Bill_store (Some Bill_post_save).

(** [bill.save()]. *)
Definition Bill_save : DB -> Bill -> result DB := Bill_save_base false.

(** *** EndUserService, Division *)

Definition linked (db : DB) (service : EndUserService) (division : Division) : bool :=
  existsb (fun p => (fst p =? eus_pk service) && (snd p =? division_pk division))
          (enduserservice_divisions db).

(** [self.divisions]. *)
Definition EndUserService_divisions (db : DB) (self : EndUserService) : list Division :=
  filter (linked db self) (divisions db).

Definition EndUserService_total_user_count (db : DB) (self : EndUserService) : number :=
  field_sum_int (map user_count (EndUserService_divisions db self)).

Definition EndUserService_get_cost_queryset (db : DB) (self : EndUserService) : list Cost :=
  filter (fun c => match cost_kind c with
                   | EndUserCost s => s =? eus_pk self
                   | _ => false
                   end) (costs db).

#[export] Instance EndUserService_CostSummary : CostSummary EndUserService :=
  inherited EndUserService_get_cost_queryset cost_cost cost_cost_estimate.

(** [self.enduserservice_set.all()]. *)
Definition enduserservice_set (db : DB) (self : Division) : list EndUserService :=
  filter (fun s => linked db s self) (enduserservices db).

Definition Division_enduser_cost (db : DB) (self : Division) : result Decimal :=
  foldM (fun total service =>
           q <- div (of_int (user_count self))
                    (Decimal_of (EndUserService_total_user_count db service)) ;;
           c <- cost db service ;;
           r <- round (mul q c) 2 ;;
           Ok (add total r))
        (enduserservice_set db self) (of_int 0).

Definition Division_enduser_estimate (db : DB) (self : Division) : result Decimal :=
  foldM (fun total service =>
           q <- div (of_int (user_count self))
                    (Decimal_of (EndUserService_total_user_count db service)) ;;
           c <- cost_estimate db service ;;
           r <- round (mul q c) 2 ;;
           Ok (add total r))
        (enduserservice_set db self) (of_int 0).

#[export] Instance Division_CostSummary : CostSummary Division :=
  {| cost := Division_enduser_cost; cost_estimate := Division_enduser_estimate |}.

(** *** Platform, SystemDependency, ITPlatformCost *)

Definition Platform_get_cost_queryset (db : DB) (self : Platform) : list Cost :=
  filter (fun c => match cost_kind c with
                   | ITPlatformCost p => p =? platform_pk self
                   | _ => false
                   end) (costs db).

#[export] Instance Platform_CostSummary : CostSummary Platform :=
  inherited Platform_get_cost_queryset cost_cost cost_cost_estimate.

Definition Platform_store (db : DB) (self : Platform) : result DB :=
  Ok (set_platforms db (write platform_pk (platforms db) self)).

Definition Platform_save_base : bool -> DB -> Platform -> result DB :=
  save_base None Platform_store None.

(** [platform.save()]. *)
Definition Platform_save : DB -> Platform -> result DB := Platform_save_base false.

(** [platform.systemdependency_set.count()]. *)
Definition systemdependency_set_count (db : DB) (platform : Platform) : Z :=
  Z.of_nat (List.length (filter (fun d => sd_platform d =? platform_pk platform)
                           (systemdependencies db))).

Definition set_system_count (self : Platform) (n : Z) : Platform :=
  mkPlatform (platform_pk self) (platform_name self) n.

Definition SystemDependency_post_save (db : DB) (self : SystemDependency) : result DB :=
  platform <- get platform_pk (platforms db) (sd_platform self) ;;
  let platform := set_system_count platform (systemdependency_set_count db platform) in
  Platform_save db platform.

Definition SystemDependency_store (db : DB) (self : SystemDependency) : result DB :=
  Ok (set_systemdependencies db (write sd_pk (systemdependencies db) self)).

Definition SystemDependency_save_base : bool -> DB -> SystemDependency -> result DB :=
  save_base None SystemDependency_store (Some SystemDependency_post_save).

(** [dependency.save()]. *)
Definition SystemDependency_save : DB -> SystemDependency -> result DB :=
  SystemDependency_save_base false.

End models.

Import models.

(** ** recoup/admin.py: AllocatedListFilter *)

Module admin.

Definition lookups : list (string * string) :=
  [ ("0", "None");
    ("lt_100", "Partially");
    ("100", "100%");
    ("gt_100", "Over allocated") ]%string.

(** The annotation [Sum("cost_items__percentage")] of a bill. *)
Definition cost_items__percentage__sum (db : DB) (b : Bill) : option Decimal :=
  Sum (map percentage (cost_items db b)).

(** A HAVING condition on the annotation; NULL satisfies none. *)
Definition having (db : DB) (p : Decimal -> bool) (b : Bill) : bool :=
  match cost_items__percentage__sum db b with
  | Some s => p s
  | None => false
  end.

(** [AllocatedListFilter.queryset]; [None] when no branch returns. *)
Definition queryset (db : DB) (value : string) (qs : list Bill) : option (list Bill) :=
  if String.eqb value "0" then
    Some (filter (fun b => negb (existsb (fun c => gtb (percentage c) (of_int 0))
                                        (cost_items db b))) qs)
  else if String.eqb value "lt_100" then
    Some (filter (having db (fun s => ltb s (of_int 100) && gtb s (of_int 0))) qs)
  else if String.eqb value "100" then
    Some (filter (having db (fun s => decimal.eqb s (of_int 100))) qs)
  else if String.eqb value "gt_100" then
    Some (filter (having db (fun s => gtb s (of_int 100))) qs)
  else None.

End admin.

Import admin.

(** * Scenarios *)

(** Concrete stores and rows on which the properties below are exercised. *)

Module scenario.

(** A bill of 1000.00 (estimate 1200.00) and a 40% line of it. *)
Definition example_bill (active : bool) : Bill :=
  mkBill 1 1 "Licences" "N/A" "" "1" 1 None
         (mkDecimal 100000 (-2)) (mkDecimal 120000 (-2)) active.

Definition example_line : Cost :=
  mkCost 1 "Desktop" 1 (mkDecimal 4000 (-2)) 1 (of_int 0) (of_int 0) (EndUserCost 1).

Definition empty_db : DB := mkDB [] [] [] [] [] [] [] [] [] [] [].

(** Two financial years, 2025/2026 stored before 2024/2025; one contract
    with one active bill, split 40% to an end-user service and 60% to a
    platform; two divisions of 50 and 150 users sharing the service. *)
Definition example_db : DB :=
  mkDB
    [ mkFinancialYear 2 739433 739797; mkFinancialYear 1 739068 739432 ]
    [ mkContract 1 "Acme" "N/A" "N/A" "Annual" 739068 None true ]
    [ example_bill true ]
    [ mkServicePool 1 "End user" ]
    [ mkCost 1 "Desktop" 1 (mkDecimal 4000 (-2)) 1
        (mkDecimal 40000 (-2)) (mkDecimal 48000 (-2)) (EndUserCost 1);
      mkCost 2 "Hosting" 1 (mkDecimal 6000 (-2)) 1
        (mkDecimal 60000 (-2)) (mkDecimal 72000 (-2)) (ITPlatformCost 1) ]
    [ mkDivision 1 "Parks" 50 3 0; mkDivision 2 "Science" 150 5 0 ]
    [ mkEndUserService 1 "Desktop" ]
    [ (1, 1); (1, 2) ]
    [ mkPlatform 1 "Cloud" 0 ]
    [ mkITSystem 1 "S001" "CC1" "Booking" 1 ]
    [ ].

(** The same bill re-priced to 2000.00 / 2400.00, and the store in which
    it has been written while its Cost rows still hold the old shares. *)
Definition repriced_bill : Bill :=
  set_bill_costs (example_bill true) (mkDecimal 200000 (-2)) (mkDecimal 240000 (-2)).

Definition stale_db : DB := set_bills example_db [ repriced_bill ].

(** A service that costs 1000.00 (estimate 1200.00), shared by divisions
    of 50 and 150 users. *)
Definition apportion_db : DB :=
  mkDB
    [ mkFinancialYear 1 739068 739432 ]
    [ mkContract 1 "Acme" "N/A" "N/A" "Annual" 739068 None true ]
    [ set_bill_costs (example_bill true) (mkDecimal 250000 (-2)) (mkDecimal 300000 (-2)) ]
    [ mkServicePool 1 "End user" ]
    [ mkCost 1 "Desktop" 1 (mkDecimal 4000 (-2)) 1
        (mkDecimal 100000 (-2)) (mkDecimal 120000 (-2)) (EndUserCost 1) ]
    [ mkDivision 1 "Parks" 50 3 0; mkDivision 2 "Science" 150 5 0 ]
    [ mkEndUserService 1 "Desktop" ]
    [ (1, 1); (1, 2) ]
    [ ] [ ] [ ].

(** A service whose only division has no users. *)
Definition nobody_db : DB :=
  mkDB [ ] [ ] [ ] [ ] [ ]
    [ mkDivision 1 "Parks" 0 3 0 ]
    [ mkEndUserService 1 "Desktop" ]
    [ (1, 1) ]
    [ ] [ ] [ ].

(** A third line of 20% on the example bill, which brings the bill's
    allocation to 120%. *)
Definition extra_line : Cost :=
  mkCost 3 "Backup" 1 (mkDecimal 2000 (-2)) 1 (of_int 0) (of_int 0) (ITPlatformCost 1).

(** The service of [apportion_db] with a single division linked to it. *)
Definition sole_db : DB :=
  mkDB (financialyears apportion_db) (contracts apportion_db) (bills apportion_db)
       (servicepools apportion_db) (costs apportion_db) (divisions apportion_db)
       (enduserservices apportion_db) [ (1, 1) ] [ ] [ ] [ ].

(** The example bill with a line of -10% and a line of +10%, written by
    saves that no validator has seen. *)
Definition offset_db : DB :=
  set_costs example_db
    [ mkCost 1 "Desktop" 1 (mkDecimal (-1000) (-2)) 1
        (mkDecimal (-10000) (-2)) (mkDecimal (-12000) (-2)) (EndUserCost 1);
      mkCost 2 "Hosting" 1 (mkDecimal 1000 (-2)) 1
        (mkDecimal 10000 (-2)) (mkDecimal 12000 (-2)) (ITPlatformCost 1) ].

(** [stale_db] with one more row of the bill, a plain Cost of 10%. *)
Definition plain_line : Cost :=
  mkCost 3 "Other" 1 (mkDecimal 1000 (-2)) 1
         (mkDecimal 10000 (-2)) (mkDecimal 12000 (-2)) PlainCost.

Definition stale_plain_db : DB := set_costs stale_db (costs stale_db ++ [ plain_line ]).

(** Two platforms, and a system that depends on the first, counted. *)
Definition platforms_db : DB :=
  mkDB [ ] [ ] [ ] [ ] [ ] [ mkDivision 1 "Parks" 50 3 0 ] [ ] [ ]
    [ mkPlatform 1 "Cloud" 1; mkPlatform 2 "Mainframe" 0 ]
    [ mkITSystem 1 "S001" "CC1" "Booking" 1 ]
    [ mkSystemDependency 1 1 1 ].

(** The service of [apportion_db] shared by a division without users
    and a division of 150. *)
Definition idle_db : DB :=
  mkDB (financialyears apportion_db) (contracts apportion_db) (bills apportion_db)
       (servicepools apportion_db) (costs apportion_db)
       [ mkDivision 1 "Parks" 0 3 0; mkDivision 2 "Science" 150 5 0 ]
       (enduserservices apportion_db) [ (1, 1); (1, 2) ] [ ] [ ] [ ].





End scenario.

Import scenario.

(** * Vocabulary of the properties *)

Module spec.

(** The rows of the store that reference the platform of key [k]. *)
Definition dependencies_on (db : DB) (k : Z) : list SystemDependency :=
  filter (fun d => sd_platform d =? k) (systemdependencies db).

(** A value at the scale of a [decimal_places=2] column. *)
Definition two_places (d : Decimal) : Prop := exp d = -2.

(** The rows of bill [b] hold their percentage at the column's scale. *)
Definition percentages_stored (db : DB) (b : Bill) : Prop :=
  forall r, In r (costs db) -> cost_bill r = bill_pk b -> two_places (percentage r).

(** An EndUserCost or ITPlatformCost row of bill [b]. *)
Definition dependent (b : Bill) (r : Cost) : Prop :=
  cost_bill r = bill_pk b /\ cost_kind r <> PlainCost.

(** *** Apportionment, as the specification words it *)

(** The division participates in the service: the many-to-many relation
    holds the pair of their keys. *)
Definition participates (db : DB) (division : Division) (service : EndUserService) :
    Prop :=
  In (eus_pk service, division_pk division) (enduserservice_divisions db).

Definition participates_dec (db : DB) (division : Division) (service : EndUserService) :
    {participates db division service} + {~ participates db division service} :=
  in_dec (fun p q : Z * Z =>
            match Z.eq_dec (fst p) (fst q), Z.eq_dec (snd p) (snd q) with
            | left H1, left H2 =>
                left (eq_trans (surjective_pairing p)
                        (eq_trans (f_equal2 pair H1 H2) (eq_sym (surjective_pairing q))))
            | right H, _ => right (fun E => H (f_equal fst E))
            | _, right H => right (fun E => H (f_equal snd E))
            end)
         (eus_pk service, division_pk division) (enduserservice_divisions db).


(** Every Division linked to the service. *)
Definition divisions_of (db : DB) (service : EndUserService) : list Division :=
  filter (fun d => if participates_dec db d service then true else false)
         (divisions db).

(** The sum of [user_count] over every Division linked to the service. *)
Definition sum_user_count (db : DB) (service : EndUserService) : Z :=
  fold_right Z.add 0 (map user_count (divisions_of db service)).




(** The exceptions of a division by zero. *)
Definition division_error (e : exception) : Prop :=
  e = DivisionByZero \/ e = InvalidOperation DivisionUndefined.

(** *** Allocation *)

(** A percentage as the validators of [Cost.percentage] accept it and
    as its column stores it: two places, between 0 and 100. *)
Definition validated (p : Decimal) : Prop :=
  two_places p /\ 0 <= coef p <= 10000.

(** The sum of [percentage] over the Cost rows of the bill, the rows
    whose bill foreign key is the key of the bill, in hundredths of a
    percent. *)
Definition allocated_hundredths (db : DB) (b : Bill) : Z :=
  fold_right Z.add 0
    (map (fun r => if Z.eq_dec (cost_bill r) (bill_pk b)
                   then coef (percentage r) else 0)
         (costs db)).

(** The classes of the specification, by the sum in hundredths. *)
Definition classification (s : Z) : string :=
  if s =? 0 then "None"
  else if s <? 10000 then "Partially"
  else if s =? 10000 then "100%"
  else "Over allocated".

(** *** Shares *)

(** [d] is exactly [n] millionths: the value of
    (x / 100) * (y / 100) / 100 when [n = x * y]. *)
Definition millionths (d : Decimal) (n : Z) : Prop :=
  -6 <= exp d /\ coef d * 10 ^ (exp d + 6) = n.

(** A value that a [DecimalField(max_digits, decimal_places=2)] holds. *)
Definition fits (max_digits : Z) (d : Decimal) : Prop :=
  two_places d /\ Z.abs (coef d) < 10 ^ max_digits.

(** [a * p / 100] at two places, rounded half to even, for an amount
    [a] and a percentage [p] at two places. *)
Definition rounded_share (a p : Decimal) : Decimal :=
  mkDecimal (round_half_even (coef a * coef p) 4) (-2).

(** The Cost pre-save rule of the specification, at the two places of
    the column: 0 for a bill that is not active, and else the amount
    times the percentage over 100. *)
Definition rule_share (b : Bill) (amount p : Decimal) : Decimal :=
  if bill_active b then rounded_share amount p else mkDecimal 0 (-2).

(** *** Tables of Cost rows *)

(** No two different rows of the table share a primary key. *)
Definition primary_key (rows : list Cost) : Prop :=
  forall r1 r2, In r1 rows -> In r2 rows -> cost_pk r1 = cost_pk r2 -> r1 = r2.

(** Everything a Cost row holds except its two derived fields. *)
Definition attributes (r : Cost) : Z * string * Z * Decimal * Z * CostKind :=
  (cost_pk r, cost_name r, cost_bill r, percentage r, service_pool r, cost_kind r).

(** [rows'] holds, row for row, what [rows] holds but for the derived
    fields, and the very rows of [rows] that [touched] does not select. *)
Definition derived_fields_only (touched : Cost -> Prop) (rows rows' : list Cost) : Prop :=
  Forall2 (fun r r' => attributes r' = attributes r /\ (~ touched r -> r' = r))
          rows rows'.

End spec.

Import spec.

(** * Fixed points of the code's derivation *)

(** Notions that the proofs about the cascade use.  They are relative
    to the derivation as the code has it, [Cost_pre_save], not to the
    rule of the specification. *)

Module fixpoint.

(** The stored derived fields of [r] are what the code's pre-save
    derivation yields from the fields of [b] and the percentage of [r],
    as the columns store it. *)
Definition up_to_date (b : Bill) (r : Cost) : Prop :=
  exists r1, Cost_pre_save b r = Ok r1
             /\ db_prep 12 (cost_cost r1) = Ok (cost_cost r)
             /\ db_prep 12 (cost_cost_estimate r1) = Ok (cost_cost_estimate r).

(** A row of bill [b] as a save leaves it. *)
Definition settled_row (b : Bill) (r : Cost) : Prop :=
  cost_bill r = bill_pk b
  /\ two_places (percentage r)
  /\ db_prep 5 (percentage r) = Ok (percentage r)
  /\ db_prep 12 (cost_cost r) = Ok (cost_cost r)
  /\ db_prep 12 (cost_cost_estimate r) = Ok (cost_cost_estimate r)
  /\ up_to_date b r.

(** A row of the table [rows] that is settled and alone under its key. *)
Definition settled_in (b : Bill) (rows : list Cost) (r : Cost) : Prop :=
  settled_row b r
  /\ forall r', In r' rows -> cost_pk r' = cost_pk r -> r' = r.

End fixpoint.

Import fixpoint.

(** * Properties *)

(** ** Generic facts *)

Lemma bind_Ok_inv {A B} (m : result A) (k : A -> result B) (b : B) :
  bind m k = Ok b -> exists a, m = Ok a /\ k a = Ok b.
Proof.
  destruct m as [a|e]; simpl; intros H.
  - exists a. split; [reflexivity | exact H].
  - discriminate H.
Qed.

Lemma pow10_pos (k : Z) : 0 <= k -> 0 < 10 ^ k.
Proof. intros Hk. apply Z.pow_pos_nonneg; lia. Qed.

(** [d == Decimal(0)] tests the coefficient. *)
Lemma eqb_zero (d : Decimal) : decimal.eqb d (of_int 0) = is_zero d.
Proof.
  unfold decimal.eqb, compare, is_zero, of_int. simpl.
  set (m := Z.min (exp d) 0).
  assert (Hp : 0 < 10 ^ (exp d - m)) by (apply pow10_pos; lia).
  destruct (Z.eqb_spec (coef d) 0) as [H0|Hn].
  - rewrite H0. reflexivity.
  - destruct (Z.compare_spec (coef d * 10 ^ (exp d - m)) 0) as [E|L|G];
      try reflexivity.
    exfalso. apply Hn. nia.
Qed.

(** ** Cost.pre_save *)

(** The scenario of an active bill of 1000.00 / 1200.00 split at 40%. *)
Example Cost_pre_save_active :
  Cost_pre_save (example_bill true) example_line
  = Ok (set_cost_estimate (set_cost example_line (mkDecimal 4000000 (-4)))
                          (mkDecimal 4800000 (-4))).
Proof. vm_compute. reflexivity. Qed.

(** C1, at an inactive bill: the derivation zeroes the two fields and
    then overwrites them with the percentage share, so a Cost row of an
    inactive bill of 1000.00 / 1200.00 at 40% gets 400.0000 and
    480.0000, not 0. *)
Theorem Cost_pre_save_inactive_bill_not_zero :
  exists c, Cost_pre_save (example_bill false) example_line = Ok c
            /\ cost_cost c = mkDecimal 4000000 (-4)
            /\ cost_cost_estimate c = mkDecimal 4800000 (-4)
            /\ is_zero (cost_cost c) = false
            /\ is_zero (cost_cost_estimate c) = false.
Proof.
  eexists. split; [vm_compute; reflexivity|].
  repeat split; reflexivity.
Qed.

(** The active flag of the bill has no influence on the derived fields. *)
Lemma Cost_pre_save_ignores_active (b : Bill) (self : Cost) :
  Cost_pre_save b self
  = (c <- div (mul (bill_cost b) (percentage self)) (of_int 100) ;;
     ce <- div (mul (bill_cost_estimate b) (percentage self)) (of_int 100) ;;
     Ok (set_cost_estimate (set_cost self c) ce)).
Proof.
  unfold Cost_pre_save.
  destruct (bill_active b); simpl; [reflexivity|].
  destruct (div (mul (bill_cost b) (percentage self)) (of_int 100)); simpl;
    [|reflexivity].
  destruct (div (mul (bill_cost_estimate b) (percentage self)) (of_int 100));
    reflexivity.
Qed.

(** ** Exactness of the share of a bill *)

Lemma ndigits_aux_pos (f : nat) (n : Z) : 1 <= ndigits_aux f n.
Proof.
  revert n. induction f as [|f IH]; intros n; cbn [ndigits_aux]; [lia|].
  destruct (n <? 10); [lia|]. specialize (IH (n / 10)). lia.
Qed.

Lemma ndigits_aux_bounds (f : nat) :
  forall n, 0 < n -> n < 2 ^ (Z.of_nat f + 1) ->
            10 ^ (ndigits_aux f n - 1) <= n < 10 ^ ndigits_aux f n.
Proof.
  induction f as [|f IH]; intros n Hn Hf.
  - simpl in *. lia.
  - cbn [ndigits_aux]. destruct (Z.ltb_spec n 10) as [Hlt|Hge].
    + simpl. lia.
    + assert (Hm : 0 < n / 10) by (apply Z.div_str_pos; lia).
      assert (Hmf : n / 10 < 2 ^ (Z.of_nat f + 1)).
      { apply Z.div_lt_upper_bound; [lia|].
        replace (Z.of_nat (S f) + 1) with (Z.succ (Z.of_nat f + 1)) in Hf by lia.
        rewrite Z.pow_succ_r in Hf by lia. lia. }
      specialize (IH _ Hm Hmf).
      pose proof (ndigits_aux_pos f (n / 10)) as Hpos.
      set (a := ndigits_aux f (n / 10)) in *.
      replace (1 + a - 1) with (Z.succ (a - 1)) by lia.
      replace (1 + a) with (Z.succ a) by lia.
      rewrite !Z.pow_succ_r by lia.
      pose proof (Z.div_mod n 10 ltac:(lia)) as Hdm.
      pose proof (Z.mod_pos_bound n 10 ltac:(lia)) as Hmod.
      lia.
Qed.

(** [ndigits] counts the decimal digits. *)
Lemma ndigits_bounds (n : Z) :
  n <> 0 -> 10 ^ (ndigits n - 1) <= Z.abs n < 10 ^ ndigits n.
Proof.
  intros Hn. unfold ndigits. apply ndigits_aux_bounds; [lia|].
  rewrite Z2Nat.id by apply Z.log2_nonneg.
  apply Z.log2_spec. lia.
Qed.

Lemma ndigits_le (n k : Z) : 1 <= k -> Z.abs n < 10 ^ k -> ndigits n <= k.
Proof.
  intros Hk Hn. destruct (Z.eq_dec n 0) as [->|Hnz]; [exact Hk|].
  destruct (ndigits_bounds n Hnz) as [Hlo _].
  destruct (Z_le_gt_dec (ndigits n) k) as [H|H]; [exact H|]. exfalso.
  assert (10 ^ k <= 10 ^ (ndigits n - 1)) by (apply Z.pow_le_mono_r; lia).
  lia.
Qed.

(** A coefficient within the precision is left alone. *)
Lemma fix_small (d : Decimal) : Z.abs (coef d) < 10 ^ prec -> fix_ d = d.
Proof.
  intros H. unfold fix_, fix_prec.
  pose proof (ndigits_le (coef d) prec ltac:(unfold prec; lia) H) as Hle.
  apply Z.leb_le in Hle. now rewrite Hle.
Qed.

Lemma mul_exact (a b : Decimal) :
  Z.abs (coef a * coef b) < 10 ^ prec ->
  mul a b = mkDecimal (coef a * coef b) (exp a + exp b).
Proof. intros H. unfold mul. now apply fix_small. Qed.

Lemma strip_zeros_pow (j fuel : nat) :
  forall c e,
    strip_zeros (j + fuel) (c * 10 ^ Z.of_nat j) e
    = strip_zeros fuel c (e + Z.of_nat j).
Proof.
  induction j as [|j IH]; intros c e.
  - simpl. now rewrite Z.mul_1_r, Z.add_0_r.
  - replace (Z.of_nat (S j)) with (Z.succ (Z.of_nat j)) by lia.
    rewrite Z.pow_succ_r by lia.
    replace (c * (10 * 10 ^ Z.of_nat j)) with (c * 10 ^ Z.of_nat j * 10) by lia.
    cbn [Nat.add strip_zeros].
    rewrite Z.mod_mul, Z.div_mul by lia. cbn [Z.eqb].
    rewrite IH. f_equal. lia.
Qed.

Lemma strip_zeros_value (fuel : nat) :
  forall c e c' e',
    strip_zeros fuel c e = (c', e') ->
    c = c' * 10 ^ (e' - e) /\ e <= e' <= e + Z.of_nat fuel.
Proof.
  induction fuel as [|fuel IH]; intros c e c' e' H.
  - injection H as <- <-. rewrite Z.sub_diag. simpl. lia.
  - cbn [strip_zeros] in H. destruct (Z.eqb_spec (c mod 10) 0) as [Hm|_].
    + apply IH in H. destruct H as [Hc He].
      replace (e' - e) with (Z.succ (e' - (e + 1))) by lia.
      rewrite Z.pow_succ_r by lia.
      pose proof (Z.div_mod c 10 ltac:(lia)) as Hdm. split; [lia|lia].
    + injection H as <- <-. rewrite Z.sub_diag. simpl. lia.
Qed.

Lemma div_eucl_div_mod (a b : Z) : Z.div_eucl a b = (a / b, a mod b).
Proof. unfold Z.div, Z.modulo. now destruct (Z.div_eucl a b). Qed.

(** Dividing a value of at most 17 digits by [Decimal(100)] is exact. *)
Lemma div_100_exact (d : Decimal) :
  coef d <> 0 -> Z.abs (coef d) < 10 ^ 17 ->
  exists r, div d (of_int 100) = Ok r
            /\ coef r * 10 ^ (exp r - (exp d - 2)) = coef d
            /\ exp d - 2 <= exp r <= exp d.
Proof.
  intros Hnz Hsmall. unfold div.
  change (is_zero (of_int 100)) with false. cbv iota.
  unfold is_zero. destruct (Z.eqb_spec (coef d) 0) as [|_]; [contradiction|].
  change (coef (of_int 100)) with 100. change (exp (of_int 100)) with 0.
  change (Z.abs 100) with 100. change (Z.sgn 100) with 1.
  change (ndigits 100) with 3.
  set (ca := Z.abs (coef d)) in *.
  assert (Hca : 0 < ca) by (unfold ca; lia).
  assert (Hnd : 1 <= ndigits ca <= 17).
  { split.
    - unfold ndigits. apply ndigits_aux_pos.
    - apply ndigits_le; [lia|]. now rewrite Z.abs_eq by lia. }
  set (shift := 3 - ndigits ca + prec + 1).
  assert (Hshift : 15 <= shift <= 31) by (unfold shift, prec; lia).
  destruct (Z.leb_spec 0 shift) as [_|]; [|lia].
  rewrite div_eucl_div_mod.
  assert (Hq : ca * 10 ^ shift = ca * 10 ^ (shift - 2) * 100).
  { replace shift with ((shift - 2) + 2) at 1 by lia.
    rewrite Z.pow_add_r by lia. change (10 ^ 2) with 100. lia. }
  rewrite Hq, Z.div_mul, Z.mod_mul by lia. cbn [Z.eqb].
  replace (Z.to_nat (exp d - 0 - (exp d - 0 - shift)))
    with (Z.to_nat (shift - 2) + 2)%nat by lia.
  replace (ca * 10 ^ (shift - 2)) with (ca * 10 ^ Z.of_nat (Z.to_nat (shift - 2)))
    by (rewrite Z2Nat.id by lia; reflexivity).
  rewrite strip_zeros_pow, Z2Nat.id by lia.
  destruct (strip_zeros 2 ca (exp d - 0 - shift + (shift - 2))) as [q' e'] eqn:Hs.
  apply strip_zeros_value in Hs. destruct Hs as [Hv He].
  assert (Hk : 0 < 10 ^ (e' - (exp d - 0 - shift + (shift - 2))))
    by (apply pow10_pos; lia).
  assert (Hq' : 0 < q' <= ca) by nia.
  eexists. split; [reflexivity|].
  rewrite fix_small.
  - cbn [coef exp]. split; [|lia].
    replace (exp d - 2) with (exp d - 0 - shift + (shift - 2)) by lia.
    rewrite <- Z.mul_assoc, <- Hv. unfold ca.
    rewrite Z.mul_1_r, Z.mul_comm. apply Z.abs_sgn.
  - cbn [coef]. unfold prec.
    assert (Z.abs (Z.sgn (coef d) * 1 * q') <= ca) by (unfold ca in *; lia).
    assert (10 ^ 17 < 10 ^ 28) by (apply Z.pow_lt_mono_r; lia).
    lia.
Qed.

(** The share [a * p / Decimal(100)] of an amount and a percentage that
    their columns can hold is computed without any rounding. *)
Lemma share_exact (a p : Decimal) :
  fits 12 a -> fits 5 p ->
  exists v, div (mul a p) (of_int 100) = Ok v
            /\ millionths v (coef a * coef p).
Proof.
  intros [Ha Hx] [Hp Hy]. red in Ha, Hp.
  assert (Hxy : Z.abs (coef a * coef p) < 10 ^ 17).
  { rewrite Z.abs_mul. change (10 ^ 17) with (10 ^ 12 * 10 ^ 5).
    apply Z.mul_lt_mono_nonneg; lia. }
  assert (H28 : (10 : Z) ^ 17 < 10 ^ prec) by (apply Z.pow_lt_mono_r; unfold prec; lia).
  rewrite mul_exact by exact (Z.lt_trans _ _ _ Hxy H28). rewrite Ha, Hp.
  destruct (Z.eq_dec (coef a * coef p) 0) as [E|N].
  - rewrite E. eexists. split; [reflexivity|]. split; cbn; lia.
  - destruct (div_100_exact (mkDecimal (coef a * coef p) (-2 + -2)) N Hxy)
      as (r & Hr & Hv & He).
    exists r. split; [exact Hr|]. cbn [coef exp] in Hv, He.
    split; [lia|]. rewrite <- Hv. reflexivity.
Qed.

(** For a bill and a percentage that their columns can hold, the
    derivation returns, and the two derived fields are exactly
    [bill.cost * percentage / 100] and
    [bill.cost_estimate * percentage / 100], whatever the bill's active
    flag. *)
Lemma Cost_pre_save_exact (b : Bill) (self : Cost) :
  fits 12 (bill_cost b) -> fits 12 (bill_cost_estimate b) ->
  fits 5 (percentage self) ->
  exists r1, Cost_pre_save b self = Ok r1
             /\ millionths (cost_cost r1)
                  (coef (bill_cost b) * coef (percentage self))
             /\ millionths (cost_cost_estimate r1)
                  (coef (bill_cost_estimate b) * coef (percentage self)).
Proof.
  intros Hc Hce Hp. rewrite Cost_pre_save_ignores_active.
  destruct (share_exact _ _ Hc Hp) as (v & -> & Hv).
  destruct (share_exact _ _ Hce Hp) as (ve & -> & Hve).
  eexists. split; [reflexivity|]. now split.
Qed.

(** ** The reference financial year *)

Section OrderBy.
Context {A : Type} (key : A -> Z).

Lemma first_insert_by (x : A) (l : list A) :
  first (insert_by key x l)
  = match first l with
    | Some y => Some (if key x <=? key y then x else y)
    | None => Some x
    end.
Proof.
  destruct l as [|y l]; simpl; [reflexivity|].
  destruct (key x <=? key y); reflexivity.
Qed.

(** The head of an ordered queryset is a row of least key. *)
Lemma first_order_by_least (l : list A) :
  l <> [] ->
  exists y, first (order_by key l) = Some y
            /\ In y l
            /\ forall z, In z l -> key y <= key z.
Proof.
  induction l as [|x l IH]; intros Hne; [congruence|].
  simpl. rewrite first_insert_by.
  destruct l as [|x' l'].
  - simpl. exists x. split; [reflexivity|]. split; [now left|].
    intros z [->|[]]. lia.
  - destruct IH as (y & Hy & Hin & Hmin); [discriminate|].
    rewrite Hy.
    destruct (Z.leb_spec (key x) (key y)) as [Hle|Hgt].
    + exists x. split; [reflexivity|]. split; [now left|].
      intros z [->|Hz]; [lia|]. specialize (Hmin z Hz). lia.
    + exists y. split; [reflexivity|]. split; [now right|].
      intros z [->|Hz]; [lia|]. exact (Hmin z Hz).
Qed.

Lemma order_by_nil : order_by key [] = [].
Proof. reflexivity. Qed.

End OrderBy.

(** C9: for a non-empty set of FinancialYear rows, the year every
    percentage is computed against is a stored year whose end date is
    the earliest of all. *)
Theorem year_is_earliest_ending (db : DB) :
  financialyears db <> [] ->
  exists y, year db = Some y
            /\ In y (financialyears db)
            /\ forall z, In z (financialyears db) -> fy_end y <= fy_end z.
Proof.
  intros Hne. unfold year. now apply first_order_by_least.
Qed.

Lemma year_is_earliest_ending_witness :
  financialyears example_db <> []
  /\ exists y, year example_db = Some y
               /\ In y (financialyears example_db)
               /\ forall z, In z (financialyears example_db) -> fy_end y <= fy_end z.
Proof.
  split; [discriminate|].
  apply (year_is_earliest_ending example_db). discriminate.
Defined.

Example year_example_db : year example_db = Some (mkFinancialYear 1 739068 739432).
Proof. reflexivity. Qed.

(** ** Percentages of the year *)

(** A division by a non-zero Decimal returns. *)
Lemma div_nonzero (a b : Decimal) :
  is_zero b = false -> exists q, div a b = Ok q.
Proof.
  intros Hb. unfold div. rewrite Hb.
  destruct (is_zero a); [eexists; reflexivity|].
  destruct (if 0 <=? _ then _ else _) as [q r].
  destruct (r =? 0).
  - destruct (strip_zeros _ q _) as [q' e']. eexists; reflexivity.
  - eexists; reflexivity.
Qed.

(** C10: with no FinancialYear row the year lookup yields None, and both
    percentage calls fail with the attribute error of [None.cost()]
    instead of returning 0. *)
Theorem percentage_without_year {M} `{CostSummary M} (db : DB) (self : M) :
  financialyears db = [] ->
  year db = None
  /\ cost_percentage db self = Raise AttributeError
  /\ cost_estimate_percentage db self = Raise AttributeError.
Proof.
  intros Hnil.
  assert (Hy : year db = None) by (unfold year; rewrite Hnil; reflexivity).
  unfold cost_percentage, cost_estimate_percentage. rewrite Hy.
  repeat split.
Qed.

Lemma percentage_without_year_witness :
  financialyears empty_db = []
  /\ year empty_db = None
  /\ cost_percentage empty_db (mkPlatform 1 "Cloud" 0) = Raise AttributeError
  /\ cost_estimate_percentage empty_db (mkPlatform 1 "Cloud" 0) = Raise AttributeError.
Proof.
  split; [reflexivity|].
  apply (percentage_without_year empty_db (mkPlatform 1 "Cloud" 0)). reflexivity.
Defined.

(** C3: with a reference year [y], the year's totals always evaluate;
    when the year's cost is zero [cost_percentage] returns the int 0
    without evaluating anything else, and otherwise the division by the
    year's cost returns and the result is the quotient times 100 rounded
    to two places.  Likewise for the estimates. *)
Theorem cost_percentage_guard {M} `{CostSummary M} (db : DB) (self : M)
    (y : FinancialYear) :
  year db = Some y ->
  exists yc yce,
    cost db y = Ok yc /\ cost_estimate db y = Ok yce
    /\ (is_zero yc = true -> cost_percentage db self = Ok (PyInt 0))
    /\ (is_zero yc = false ->
        cost_percentage db self
        = (c <- cost db self ;;
           q <- div c yc ;;
           r <- round (mul q (of_int 100)) 2 ;;
           Ok (PyDecimal r))
        /\ forall c, exists q, div c yc = Ok q)
    /\ (is_zero yce = true -> cost_estimate_percentage db self = Ok (PyInt 0))
    /\ (is_zero yce = false ->
        cost_estimate_percentage db self
        = (c <- cost_estimate db self ;;
           q <- div c yce ;;
           r <- round (mul q (of_int 100)) 2 ;;
           Ok (PyDecimal r))
        /\ forall c, exists q, div c yce = Ok q).
Proof.
  intros Hy.
  exists (field_sum (map bill_cost (FinancialYear_get_cost_queryset db y))).
  exists (field_sum (map bill_cost_estimate (FinancialYear_get_cost_queryset db y))).
  split; [reflexivity|]. split; [reflexivity|].
  unfold cost_percentage, cost_estimate_percentage. rewrite Hy.
  cbn [cost cost_estimate FinancialYear_CostSummary inherited
       inherited_cost inherited_cost_estimate bind].
  rewrite !eqb_zero.
  split; [intros ->; reflexivity|].
  split; [intros Hz; rewrite Hz; split;
          [reflexivity | intros c; now apply div_nonzero]|].
  split; [intros ->; reflexivity|].
  intros Hz; rewrite Hz; split;
    [reflexivity | intros c; now apply div_nonzero].
Qed.

Lemma cost_percentage_guard_witness :
  year example_db = Some (mkFinancialYear 1 739068 739432)
  /\ cost_percentage example_db (mkPlatform 1 "Cloud" 0)
     = Ok (PyDecimal (mkDecimal 6000 (-2))).
Proof.
  split; [reflexivity|].
  destruct (cost_percentage_guard example_db (mkPlatform 1 "Cloud" 0)
              (mkFinancialYear 1 739068 739432) eq_refl)
    as (yc & yce & Hyc & _ & _ & Hnz & _).
  injection Hyc as <-.
  destruct (Hnz eq_refl) as [-> _].
  vm_compute. reflexivity.
Defined.

(** ** Reads and writes of a table *)

Section TableFacts.
Context {A : Type} (pk : A -> Z).

Lemma get_Ok_pk (rows : list A) (k : Z) (r : A) :
  get pk rows k = Ok r -> pk r = k /\ In r rows.
Proof.
  unfold get. destruct (find _ rows) as [r'|] eqn:Hf; [|discriminate].
  intros [= ->]. apply find_some in Hf. destruct Hf as [Hin Hk].
  apply Z.eqb_eq in Hk. now split.
Qed.

(** A key under which a row is read satisfies a foreign-key constraint. *)
Lemma get_references (rows : list A) (k : Z) (r : A) :
  get pk rows k = Ok r -> references pk rows k = Ok tt.
Proof.
  unfold get, references. destruct (find _ rows) as [r'|] eqn:Hf; [|discriminate].
  intros _. apply find_some in Hf.
  replace (existsb (fun r0 => pk r0 =? k) rows) with true; [reflexivity|].
  symmetry. apply existsb_exists. now exists r'.
Qed.


Lemma find_map_replace (rows : list A) (x : A) :
  existsb (fun r => pk r =? pk x) rows = true ->
  find (fun r => pk r =? pk x)
       (map (fun r => if pk r =? pk x then x else r) rows) = Some x.
Proof.
  induction rows as [|r rows IH]; simpl; [discriminate|].
  destruct (pk r =? pk x) eqn:Hr; simpl.
  - intros _. rewrite Z.eqb_refl. reflexivity.
  - rewrite Hr. exact IH.
Qed.

Lemma find_app_none (rows : list A) (x : A) :
  existsb (fun r => pk r =? pk x) rows = false ->
  find (fun r => pk r =? pk x) (rows ++ [x]) = Some x.
Proof.
  induction rows as [|r rows IH]; simpl.
  - intros _. rewrite Z.eqb_refl. reflexivity.
  - destruct (pk r =? pk x); simpl; [discriminate | exact IH].
Qed.

(** A row that was just written is the row read back under its key. *)
Lemma get_write (rows : list A) (x : A) :
  get pk (write pk rows x) (pk x) = Ok x.
Proof.
  unfold get, write.
  destruct (existsb _ rows) eqn:He.
  - now rewrite find_map_replace.
  - now rewrite find_app_none.
Qed.

(** After a write, a row is the written one or an old row of another key. *)
Lemma In_write (rows : list A) (x r : A) :
  In r (write pk rows x) -> r = x \/ (In r rows /\ pk r <> pk x).
Proof.
  unfold write. destruct (existsb _ rows) eqn:He.
  - rewrite in_map_iff. intros (r0 & Hr0 & Hin).
    destruct (Z.eqb_spec (pk r0) (pk x)) as [Hk|Hne].
    + left. now symmetry.
    + right. subst r0. now split.
  - rewrite in_app_iff. intros [Hin|[<-|[]]]; [|now left].
    destruct (Z.eq_dec (pk r) (pk x)) as [Hk|Hne]; [|right; now split].
    exfalso.
    assert (Hex : existsb (fun r => pk r =? pk x) rows = true).
    { apply existsb_exists. exists r. split; [exact Hin | now apply Z.eqb_eq]. }
    congruence.
Qed.

Lemma In_write_same (rows : list A) (x : A) : In x (write pk rows x).
Proof.
  unfold write. destruct (existsb _ rows) eqn:He.
  - apply existsb_exists in He. destruct He as (r & Hin & Hr).
    apply in_map_iff. exists r. rewrite Hr. now split.
  - apply in_app_iff. right. now left.
Qed.

Lemma In_write_other (rows : list A) (x r : A) :
  In r rows -> pk r <> pk x -> In r (write pk rows x).
Proof.
  intros Hin Hne. unfold write. destruct (existsb _ rows).
  - apply in_map_iff. exists r. split; [|exact Hin].
    destruct (Z.eqb_spec (pk r) (pk x)); [contradiction | reflexivity].
  - apply in_app_iff. now left.
Qed.

End TableFacts.

(** ** SystemDependency.post_save *)

(** C4: after [dependency.save()] returns, the dependency is stored, the
    referenced platform is stored, and every stored row of that platform
    carries as [system_count] the number of SystemDependency rows that
    reference it, whatever the count was before. *)
Theorem SystemDependency_save_recounts (db db' : DB) (sd : SystemDependency) :
  SystemDependency_save db sd = Ok db' ->
  In sd (systemdependencies db')
  /\ (exists p, get platform_pk (platforms db') (sd_platform sd) = Ok p)
  /\ forall p, In p (platforms db') -> platform_pk p = sd_platform sd ->
       system_count p = Z.of_nat (List.length (dependencies_on db' (sd_platform sd))).
Proof.
  unfold SystemDependency_save, SystemDependency_save_base, save_base.
  cbn [option_map pre_save_hook post_save_hook bind SystemDependency_store].
  unfold SystemDependency_post_save.
  set (db1 := set_systemdependencies db (write sd_pk (systemdependencies db) sd)).
  intros Hsave. apply bind_Ok_inv in Hsave. destruct Hsave as (pl & Hget & Hsave).
  apply get_Ok_pk in Hget. destruct Hget as [Hpk Hin].
  change (platforms db1) with (platforms db) in *.
  unfold Platform_save, Platform_save_base, save_base in Hsave.
  cbn [option_map pre_save_hook post_save_hook bind Platform_store] in Hsave.
  injection Hsave as <-.
  cbn [systemdependencies platforms set_platforms].
  change (systemdependencies db1) with (write sd_pk (systemdependencies db) sd).
  split; [apply In_write_same|].
  set (pl' := set_system_count pl (systemdependency_set_count db1 pl)).
  assert (Hpk' : platform_pk pl' = sd_platform sd) by exact Hpk.
  split.
  - exists pl'. rewrite <- Hpk'. apply get_write.
  - intros p Hp Hk. apply In_write in Hp. destruct Hp as [->|[_ Hne]].
    + unfold pl', set_system_count, systemdependency_set_count, dependencies_on.
      cbn [system_count platform_pk]. rewrite Hpk. reflexivity.
    + exfalso. apply Hne. now rewrite Hk, Hpk'.
Qed.

Lemma SystemDependency_save_recounts_witness :
  exists db',
    SystemDependency_save example_db (mkSystemDependency 1 1 1) = Ok db'
    /\ forall p, In p (platforms db') -> platform_pk p = 1 -> system_count p = 1.
Proof.
  eexists. split; [vm_compute; reflexivity|].
  intros p Hp Hk.
  refine (proj2 (proj2 (SystemDependency_save_recounts example_db _
                          (mkSystemDependency 1 1 1) eq_refl)) p Hp Hk).
Defined.

(** A save returns exactly when the referenced platform is stored. *)
Lemma SystemDependency_save_returns (db : DB) (sd : SystemDependency) (p : Platform) :
  get platform_pk (platforms db) (sd_platform sd) = Ok p ->
  exists db', SystemDependency_save db sd = Ok db'.
Proof.
  intros Hget.
  unfold SystemDependency_save, SystemDependency_save_base, save_base.
  cbn [option_map pre_save_hook post_save_hook bind SystemDependency_store].
  unfold SystemDependency_post_save.
  cbn [platforms set_systemdependencies]. rewrite Hget.
  cbn [bind]. eexists. reflexivity.
Qed.

(** A raw write (fixture loading) runs no hook: the platforms are left
    as they are. *)
Lemma SystemDependency_raw_write (db : DB) (sd : SystemDependency) :
  exists db', SystemDependency_save_base true db sd = Ok db'
              /\ platforms db' = platforms db.
Proof. eexists. split; reflexivity. Qed.

(** ** Quantized values *)

Lemma rescale_exp (d : Decimal) (e : Z) : exp (rescale d e) = e.
Proof. unfold rescale. destruct (e <=? exp d); reflexivity. Qed.

Lemma rescale_same (d : Decimal) : rescale d (exp d) = d.
Proof.
  unfold rescale. rewrite Z.leb_refl, Z.sub_diag, Z.pow_0_r, Z.mul_1_r.
  destruct d; reflexivity.
Qed.

Lemma quantize_exp (p : Z) (d a : Decimal) (e : Z) :
  quantize p d e = Ok a -> exp a = e.
Proof.
  unfold quantize. destruct (is_zero d); [intros [= <-]; reflexivity|].
  destruct (_ >? p); [discriminate|].
  destruct (_ >? p); [discriminate|].
  intros [= <-]. apply rescale_exp.
Qed.

(** A value that already has the target exponent is left as it is. *)
Lemma quantize_same_exp (p : Z) (d a : Decimal) :
  quantize p d (exp d) = Ok a -> a = d.
Proof.
  unfold quantize. destruct (is_zero d) eqn:Hz.
  - intros [= <-]. unfold is_zero in Hz. apply Z.eqb_eq in Hz.
    destruct d; simpl in *. now subst.
  - destruct (_ >? p); [discriminate|].
    rewrite rescale_same. destruct (_ >? p); [discriminate|].
    now intros [= <-].
Qed.

(** Quantizing a quantized value returns it. *)
Lemma quantize_idem (p : Z) (d a : Decimal) (e : Z) :
  quantize p d e = Ok a -> quantize p a e = Ok a.
Proof.
  intros H. pose proof (quantize_exp _ _ _ _ H) as He.
  assert (Hd : is_zero a = true \/ (ndigits (coef a) >? p) = false).
  { revert H. unfold quantize. destruct (is_zero d).
    - intros [= <-]. now left.
    - destruct (_ >? p); [discriminate|].
      destruct (ndigits (coef (rescale d e)) >? p) eqn:Hn; [discriminate|].
      intros [= <-]. now right. }
  subst e. unfold quantize. destruct (is_zero a) eqn:Hz.
  - unfold is_zero in Hz. apply Z.eqb_eq in Hz.
    destruct a; simpl in *. now subst.
  - destruct Hd as [Hd|Hd]; [congruence|].
    unfold adjusted.
    replace (exp a + ndigits (coef a) - 1 - exp a + 1) with (ndigits (coef a)) by lia.
    rewrite Hd, rescale_same, Hd. reflexivity.
Qed.

(** ** Writes of a Cost row *)

Lemma Cost_pre_save_inv (b : Bill) (self r1 : Cost) :
  Cost_pre_save b self = Ok r1 ->
  exists v ve,
    div (mul (bill_cost b) (percentage self)) (of_int 100) = Ok v
    /\ div (mul (bill_cost_estimate b) (percentage self)) (of_int 100) = Ok ve
    /\ r1 = set_cost_estimate (set_cost self v) ve.
Proof.
  rewrite Cost_pre_save_ignores_active. intros H.
  apply bind_Ok_inv in H. destruct H as (v & Hv & H).
  apply bind_Ok_inv in H. destruct H as (ve & Hve & H).
  injection H as <-. now exists v, ve.
Qed.

(** What [cost.save()] does when it returns. *)
Lemma Cost_save_cached_inv (cached : option Bill) (db db' : DB) (c : Cost) :
  Cost_save_cached cached db c = Ok db' ->
  exists b c1 p v ve,
    Cost_bill db cached c = Ok b
    /\ Cost_pre_save b c = Ok c1
    /\ db_prep 5 (percentage c1) = Ok p
    /\ db_prep 12 (cost_cost c1) = Ok v
    /\ db_prep 12 (cost_cost_estimate c1) = Ok ve
    /\ references bill_pk (bills db) (cost_bill c) = Ok tt
    /\ db' = set_costs db
               (write cost_pk (costs db)
                  (set_cost_estimate (set_cost (set_percentage c1 p) v) ve)).
Proof.
  unfold Cost_save_cached, save_base.
  cbn [option_map pre_save_hook post_save_hook].
  unfold Cost_pre_save_signal, Cost_store. intros H.
  apply bind_Ok_inv in H. destruct H as (c1 & Hc1 & H).
  apply bind_Ok_inv in Hc1. destruct Hc1 as (b & Hb & Hc1).
  apply bind_Ok_inv in H. destruct H as (db1 & H & Hpost).
  injection Hpost as <-.
  apply bind_Ok_inv in H. destruct H as (p & Hp & H).
  apply bind_Ok_inv in H. destruct H as (v & Hv & H).
  apply bind_Ok_inv in H. destruct H as (ve & Hve & H).
  apply bind_Ok_inv in H. destruct H as ([] & Hfk & H).
  injection H as <-.
  exists b, c1, p, v, ve. repeat (split; [assumption|]).
  split; [|reflexivity].
  destruct (Cost_pre_save_inv _ _ _ Hc1) as (v0 & ve0 & _ & _ & ->). exact Hfk.
Qed.

Lemma Cost_save_inv (db db' : DB) (c : Cost) :
  Cost_save db c = Ok db' ->
  exists b c1 p v ve,
    get bill_pk (bills db) (cost_bill c) = Ok b
    /\ Cost_pre_save b c = Ok c1
    /\ db_prep 5 (percentage c1) = Ok p
    /\ db_prep 12 (cost_cost c1) = Ok v
    /\ db_prep 12 (cost_cost_estimate c1) = Ok ve
    /\ db' = set_costs db
               (write cost_pk (costs db)
                  (set_cost_estimate (set_cost (set_percentage c1 p) v) ve)).
Proof.
  intros H. apply Cost_save_cached_inv in H.
  destruct H as (b & c1 & p & v & ve & H1 & H2 & H3 & H4 & H5 & _ & H6).
  now exists b, c1, p, v, ve.
Qed.

(** What [cost.save()] returns when each of its steps returns. *)
Lemma Cost_save_cached_steps (cached : option Bill) (db : DB) (c : Cost)
    (b : Bill) (v0 ve0 p v ve : Decimal) :
  Cost_bill db cached c = Ok b ->
  div (mul (bill_cost b) (percentage c)) (of_int 100) = Ok v0 ->
  div (mul (bill_cost_estimate b) (percentage c)) (of_int 100) = Ok ve0 ->
  db_prep 5 (percentage c) = Ok p ->
  db_prep 12 v0 = Ok v ->
  db_prep 12 ve0 = Ok ve ->
  references bill_pk (bills db) (cost_bill c) = Ok tt ->
  Cost_save_cached cached db c
  = Ok (set_costs db
          (write cost_pk (costs db)
             (set_cost_estimate (set_cost (set_percentage c p) v) ve))).
Proof.
  intros Hb Hv0 Hve0 Hp Hv Hve Hfk.
  unfold Cost_save_cached, save_base.
  cbn [option_map pre_save_hook post_save_hook].
  unfold Cost_pre_save_signal. rewrite Hb. cbn [bind].
  rewrite Cost_pre_save_ignores_active, Hv0, Hve0. cbn [bind].
  unfold Cost_store.
  cbn [percentage cost_cost cost_cost_estimate cost_bill set_cost set_cost_estimate].
  rewrite Hp, Hv, Hve, Hfk. cbn [bind]. destruct c; reflexivity.
Qed.

(** Saving an instance whose percentage is at the column's scale writes
    a settled row under the same key. *)
Lemma Cost_save_settles (db db' : DB) (b : Bill) (c : Cost) :
  get bill_pk (bills db) (cost_bill c) = Ok b ->
  two_places (percentage c) ->
  Cost_save db c = Ok db' ->
  exists x, db' = set_costs db (write cost_pk (costs db) x)
            /\ cost_pk x = cost_pk c
            /\ settled_row b x.
Proof.
  intros Hb Hp Hsave.
  apply Cost_save_inv in Hsave.
  destruct Hsave as (b0 & c1 & p & v & ve & Hb0 & Hpre & Hqp & Hqv & Hqve & ->).
  rewrite Hb in Hb0. injection Hb0 as <-.
  destruct (Cost_pre_save_inv _ _ _ Hpre) as (v0 & ve0 & Hv0 & Hve0 & ->).
  cbn [percentage cost_cost cost_cost_estimate set_cost set_cost_estimate] in Hqp, Hqv, Hqve.
  assert (Hpp : p = percentage c).
  { unfold db_prep in Hqp. red in Hp. rewrite <- Hp in Hqp.
    now apply quantize_same_exp in Hqp. }
  subst p.
  eexists. split; [reflexivity|].
  split; [reflexivity|].
  apply get_Ok_pk in Hb. destruct Hb as [Hk _].
  unfold settled_row.
  cbn [percentage cost_cost cost_cost_estimate cost_bill
       set_cost set_cost_estimate set_percentage].
  split; [now symmetry|]. split; [exact Hp|]. split; [exact Hqp|].
  split; [exact (quantize_idem _ _ _ _ Hqv)|].
  split; [exact (quantize_idem _ _ _ _ Hqve)|].
  unfold up_to_date. rewrite Cost_pre_save_ignores_active.
  cbn [percentage set_cost set_cost_estimate set_percentage].
  rewrite Hv0, Hve0. cbn [bind].
  eexists. split; [reflexivity|].
  cbn [cost_cost cost_cost_estimate set_cost set_cost_estimate].
  now split.
Qed.

Lemma write_same {A} (pk : A -> Z) (rows : list A) (x : A) :
  In x rows ->
  (forall r, In r rows -> pk r = pk x -> r = x) ->
  write pk rows x = rows.
Proof.
  intros Hin Huniq. unfold write.
  replace (existsb (fun r => pk r =? pk x) rows) with true.
  - rewrite <- (map_id rows) at 2. apply map_ext_in. intros r Hr.
    destruct (Z.eqb_spec (pk r) (pk x)) as [Hk|_]; [|reflexivity].
    symmetry. now apply Huniq.
  - symmetry. apply existsb_exists. exists x. split; [exact Hin|apply Z.eqb_refl].
Qed.

Lemma set_costs_same (db : DB) : set_costs db (costs db) = db.
Proof. destruct db; reflexivity. Qed.

(** Saving a settled row that is the only row of its key changes nothing. *)
Lemma Cost_save_settled (db : DB) (b : Bill) (r : Cost) :
  get bill_pk (bills db) (cost_bill r) = Ok b ->
  settled_row b r ->
  In r (costs db) ->
  (forall r', In r' (costs db) -> cost_pk r' = cost_pk r -> r' = r) ->
  Cost_save db r = Ok db.
Proof.
  intros Hb (_ & _ & Hqp & _ & _ & (r1 & Hpre & Hqv & Hqve)) Hin Huniq.
  destruct (Cost_pre_save_inv _ _ _ Hpre) as (v0 & ve0 & Hv0 & Hve0 & ->).
  cbn [cost_cost cost_cost_estimate set_cost set_cost_estimate] in Hqv, Hqve.
  unfold Cost_save.
  rewrite (Cost_save_cached_steps None db r b v0 ve0 _ _ _ Hb Hv0 Hve0 Hqp Hqv Hqve
             (get_references _ _ _ _ Hb)).
  replace (set_cost_estimate _ _) with r by (destruct r; reflexivity).
  rewrite write_same by assumption.
  now rewrite set_costs_same.
Qed.

(** ** The cascade of Bill.post_save *)

Lemma bills_set_costs (db : DB) (l : list Cost) : bills (set_costs db l) = bills db.
Proof. reflexivity. Qed.

Lemma foldM_fixed {A B} (f : B -> A -> result B) (l : list A) (acc : B) :
  (forall x, In x l -> f acc x = Ok acc) -> foldM f l acc = Ok acc.
Proof.
  induction l as [|x l IH]; intros H; [reflexivity|].
  simpl. rewrite (H x (or_introl eq_refl)). simpl.
  apply IH. intros y Hy. apply H. now right.
Qed.

(** One loop of the cascade: when it returns, the bills are untouched and
    every Cost row is settled, or is an old row whose key none of the
    saved instances had. *)
Lemma save_loop (b : Bill) (l : list Cost) :
  forall db db',
    foldM Cost_save l db = Ok db' ->
    get bill_pk (bills db) (bill_pk b) = Ok b ->
    (forall c, In c l -> cost_bill c = bill_pk b /\ two_places (percentage c)) ->
    bills db' = bills db
    /\ forall r, In r (costs db') ->
         settled_in b (costs db') r
         \/ (In r (costs db) /\ forall c, In c l -> cost_pk c <> cost_pk r).
Proof.
  induction l as [|c l IH]; intros db db' Hfold Hb Hl.
  - injection Hfold as <-. split; [reflexivity|].
    intros r Hr. right. split; [exact Hr|]. intros c [].
  - simpl in Hfold. apply bind_Ok_inv in Hfold.
    destruct Hfold as (db1 & Hsave & Hfold).
    destruct (Hl c (or_introl eq_refl)) as [Hck Hcp].
    assert (Hbc : get bill_pk (bills db) (cost_bill c) = Ok b) by now rewrite Hck.
    destruct (Cost_save_settles _ _ _ _ Hbc Hcp Hsave) as (x & -> & Hxk & Hx).
    specialize (IH _ _ Hfold).
    rewrite bills_set_costs in IH.
    destruct (IH Hb (fun c' Hc' => Hl c' (or_intror Hc'))) as [Hbills Hrows].
    split; [exact Hbills|].
    cbn [costs set_costs] in Hrows.
    intros r Hr. destruct (Hrows r Hr) as [Hs|[Hin Hnot]]; [now left|].
    apply In_write in Hin. destruct Hin as [->|[Hin Hne]].
    + left. split; [exact Hx|].
      intros r' Hr' Hk'. destruct (Hrows r' Hr') as [[_ Hu]|[Hin' _]].
      * symmetry. apply Hu; [exact Hr | now symmetry].
      * apply In_write in Hin'. destruct Hin' as [->|[_ Hne']];
          [reflexivity | contradiction].
    + right. split; [exact Hin|].
      intros c' [<-|Hc']; [congruence | now apply Hnot].
Qed.

(** When the cascade of a stored bill returns, the bills are untouched
    and every dependent row is settled and alone under its key. *)
Lemma Bill_post_save_settles (db db' : DB) (b self : Bill) :
  bill_pk self = bill_pk b ->
  get bill_pk (bills db) (bill_pk b) = Ok b ->
  percentages_stored db b ->
  Bill_post_save db self = Ok db' ->
  bills db' = bills db
  /\ forall r, In r (costs db') -> dependent b r -> settled_in b (costs db') r.
Proof.
  intros Hself Hb Hwf Hpost. unfold Bill_post_save in Hpost.
  apply bind_Ok_inv in Hpost. destruct Hpost as (db1 & H1 & H2).
  unfold EndUserCost_filter_bill in H1. unfold ITPlatformCost_filter_bill in H2.
  rewrite Hself in H1, H2.
  destruct (save_loop b _ _ _ H1 Hb) as [Hbills1 Hrows1].
  { intros c Hc. apply filter_In in Hc. destruct Hc as [Hc Hf].
    apply andb_prop in Hf. destruct Hf as [Hk _]. apply Z.eqb_eq in Hk.
    split; [exact Hk | now apply Hwf]. }
  assert (Hb1 : get bill_pk (bills db1) (bill_pk b) = Ok b) by now rewrite Hbills1.
  destruct (save_loop b _ _ _ H2 Hb1) as [Hbills2 Hrows2].
  { intros c Hc. apply filter_In in Hc. destruct Hc as [Hc Hf].
    apply andb_prop in Hf. destruct Hf as [Hk _]. apply Z.eqb_eq in Hk.
    split; [exact Hk|].
    destruct (Hrows1 c Hc) as [[(_ & Hp & _) _]|[Hin _]]; [exact Hp|].
    now apply Hwf. }
  split; [congruence|].
  intros r Hr [Hk Hkind].
  destruct (Hrows2 r Hr) as [Hs|[Hin1 Hnot2]]; [exact Hs|].
  destruct (Hrows1 r Hin1) as [[Hs Hu]|[Hin0 Hnot1]].
  - split; [exact Hs|].
    intros r' Hr' Hk'. destruct (Hrows2 r' Hr') as [[_ Hu']|[Hin' _]].
    + symmetry. apply Hu'; [exact Hr | now symmetry].
    + now apply Hu.
  - exfalso. destruct (cost_kind r) eqn:Hkr; [now apply Hkind| |].
    + apply (Hnot1 r); [|reflexivity]. apply filter_In. split; [exact Hin0|].
      unfold is_EndUserCost. rewrite Hkr, Hk, Z.eqb_refl. reflexivity.
    + apply (Hnot2 r); [|reflexivity]. apply filter_In. split; [exact Hin1|].
      unfold is_ITPlatformCost. rewrite Hkr, Hk, Z.eqb_refl. reflexivity.
Qed.

(** A write under a key of the table keeps the table's keys. *)
Lemma write_keys {A} (pk : A -> Z) (rows : list A) (x : A) :
  In (pk x) (map pk rows) -> map pk (write pk rows x) = map pk rows.
Proof.
  intros Hin. unfold write.
  replace (existsb (fun r => pk r =? pk x) rows) with true.
  - rewrite map_map. apply map_ext. intros r.
    destruct (Z.eqb_spec (pk r) (pk x)) as [E|_]; [now symmetry | reflexivity].
  - symmetry. apply existsb_exists. apply in_map_iff in Hin.
    destruct Hin as (r & Hr & Hin). exists r. split; [exact Hin | now apply Z.eqb_eq].
Qed.

Lemma save_loop_keys (l : list Cost) :
  forall db db',
    foldM Cost_save l db = Ok db' ->
    (forall c, In c l -> In (cost_pk c) (map cost_pk (costs db))) ->
    map cost_pk (costs db') = map cost_pk (costs db).
Proof.
  induction l as [|c l IH]; intros db db' Hfold Hl.
  - now injection Hfold as <-.
  - simpl in Hfold. apply bind_Ok_inv in Hfold.
    destruct Hfold as (db1 & Hsave & Hfold).
    apply Cost_save_inv in Hsave.
    destruct Hsave as (b & c1 & p & v & ve & _ & Hpre & _ & _ & _ & ->).
    destruct (Cost_pre_save_inv _ _ _ Hpre) as (v0 & ve0 & _ & _ & ->).
    assert (Hk : map cost_pk (costs (set_costs db (write cost_pk (costs db)
                    (set_cost_estimate (set_cost (set_percentage
                       (set_cost_estimate (set_cost c v0) ve0) p) v) ve))))
                 = map cost_pk (costs db)).
    { cbn [costs set_costs]. apply write_keys. apply (Hl c). now left. }
    rewrite <- Hk. apply IH; [exact Hfold|].
    intros c' Hc'. rewrite Hk. apply Hl. now right.
Qed.

(** The cascade keeps the keys of the Cost table. *)
Lemma Bill_post_save_keys (db db' : DB) (self : Bill) :
  Bill_post_save db self = Ok db' ->
  map cost_pk (costs db') = map cost_pk (costs db).
Proof.
  unfold Bill_post_save. intros H.
  apply bind_Ok_inv in H. destruct H as (db1 & H1 & H2).
  apply save_loop_keys in H1, H2.
  - congruence.
  - intros c Hc. apply filter_In in Hc. now apply in_map.
  - intros c Hc. apply filter_In in Hc. now apply in_map.
Qed.

Lemma percentages_stored_example (b : Bill) : percentages_stored example_db b.
Proof.
  intros r Hr _. simpl in Hr. destruct Hr as [<-|[<-|[]]]; reflexivity.
Qed.

(** A raw write of a bill (fixture loading) runs no hook: the Cost rows
    are left as they are. *)
Lemma Bill_raw_write (db db' : DB) (b : Bill) :
  Bill_save_base true db b = Ok db' -> costs db' = costs db.
Proof.
  unfold Bill_save_base, save_base.
  cbn [option_map pre_save_hook post_save_hook bind].
  intros H. apply bind_Ok_inv in H. destruct H as (db0 & Hstore & [= <-]).
  unfold Bill_store in Hstore.
  apply bind_Ok_inv in Hstore. destruct Hstore as (c & _ & Hstore).
  apply bind_Ok_inv in Hstore. destruct Hstore as (ce & _ & [= <-]).
  reflexivity.
Qed.

(** ** Idempotence of the recomputation *)

(** C8: the pre-save derivation applied to its own result returns that
    result, and a cascade that is run again on the store it produced
    returns that store unchanged. *)
Theorem recompute_idempotent :
  (forall (b : Bill) (self r1 : Cost),
      Cost_pre_save b self = Ok r1 -> Cost_pre_save b r1 = Ok r1)
  /\ (forall (db db1 : DB) (self b : Bill),
         bill_pk self = bill_pk b ->
         get bill_pk (bills db) (bill_pk b) = Ok b ->
         percentages_stored db b ->
         Bill_post_save db self = Ok db1 ->
         Bill_post_save db1 self = Ok db1).
Proof.
  split.
  - intros b self r1 H.
    destruct (Cost_pre_save_inv _ _ _ H) as (v & ve & Hv & Hve & ->).
    rewrite Cost_pre_save_ignores_active.
    cbn [percentage set_cost set_cost_estimate].
    rewrite Hv, Hve. cbn [bind]. destruct self; reflexivity.
  - intros db db1 self b Hself Hb Hwf Hpost.
    destruct (Bill_post_save_settles _ _ _ _ Hself Hb Hwf Hpost) as [Hbills Hrows].
    assert (Hb1 : get bill_pk (bills db1) (bill_pk b) = Ok b) by now rewrite Hbills.
    assert (Hfix : forall c, In c (costs db1) ->
                     cost_bill c = bill_pk b -> cost_kind c <> PlainCost ->
                     Cost_save db1 c = Ok db1).
    { intros c Hc Hk Hkind.
      destruct (Hrows c Hc (conj Hk Hkind)) as [Hs Hu].
      apply (Cost_save_settled db1 b c); try assumption. now rewrite Hk. }
    unfold Bill_post_save.
    rewrite foldM_fixed.
    + cbn [bind]. apply foldM_fixed.
      intros c Hc. apply filter_In in Hc. destruct Hc as [Hc Hf].
      apply andb_prop in Hf. destruct Hf as [Hk Hkind]. apply Z.eqb_eq in Hk.
      apply Hfix; [exact Hc | congruence |].
      unfold is_ITPlatformCost in Hkind. intros E. now rewrite E in Hkind.
    + intros c Hc. apply filter_In in Hc. destruct Hc as [Hc Hf].
      apply andb_prop in Hf. destruct Hf as [Hk Hkind]. apply Z.eqb_eq in Hk.
      apply Hfix; [exact Hc | congruence |].
      unfold is_EndUserCost in Hkind. intros E. now rewrite E in Hkind.
Qed.

Lemma recompute_idempotent_witness :
  exists r1 db1,
    Cost_pre_save repriced_bill example_line = Ok r1
    /\ Cost_pre_save repriced_bill r1 = Ok r1
    /\ Bill_post_save stale_db repriced_bill = Ok db1
    /\ map cost_cost (costs stale_db) = [ mkDecimal 40000 (-2); mkDecimal 60000 (-2) ]
    /\ map cost_cost (costs db1) = [ mkDecimal 80000 (-2); mkDecimal 120000 (-2) ]
    /\ Bill_post_save db1 repriced_bill = Ok db1.
Proof.
  destruct (Cost_pre_save repriced_bill example_line) as [r1|e] eqn:Hpre;
    [|vm_compute in Hpre; discriminate Hpre].
  destruct (Bill_post_save stale_db repriced_bill) as [db1|e] eqn:Hpost;
    [|vm_compute in Hpost; discriminate Hpost].
  exists r1, db1.
  split; [reflexivity|].
  split; [exact (proj1 recompute_idempotent repriced_bill example_line r1 Hpre)|].
  split; [reflexivity|].
  split; [vm_compute; reflexivity|].
  split; [pose proof Hpost as Hnf; vm_compute in Hnf; injection Hnf as <-;
          vm_compute; reflexivity|].
  apply (proj2 recompute_idempotent stale_db db1 repriced_bill repriced_bill).
  - reflexivity.
  - vm_compute. reflexivity.
  - intros r Hr _. simpl in Hr. destruct Hr as [<-|[<-|[]]]; reflexivity.
  - exact Hpost.
Defined.

(** ** Division cost apportionment *)

Lemma fold_left_Zadd (l : list Z) (a : Z) :
  fold_left Z.add l a = a + fold_right Z.add 0 l.
Proof.
  revert a. induction l as [|x l IH]; intros a; simpl; [lia|].
  rewrite IH. lia.
Qed.

(** [Decimal(field_sum(...))] over an integer column is the sum. *)
Lemma Decimal_of_field_sum_int (col : list Z) :
  Decimal_of (field_sum_int col) = of_int (fold_right Z.add 0 col).
Proof.
  unfold field_sum_int. destruct col as [|x col]; [reflexivity|].
  cbn [Sum_int]. rewrite fold_left_Zadd.
  cbn [fold_right]. destruct (Z.eqb_spec (x + fold_right Z.add 0 col) 0) as [E|_].
  - simpl. now rewrite E.
  - reflexivity.
Qed.

(** The join that the code evaluates selects the pairs of the
    many-to-many relation. *)
Lemma linked_participates (db : DB) (s : EndUserService) (d : Division) :
  linked db s d = if participates_dec db d s then true else false.
Proof.
  unfold linked. destruct (participates_dec db d s) as [H|H].
  - apply existsb_exists. exists (eus_pk s, division_pk d).
    split; [exact H|]. cbn [fst snd]. now rewrite !Z.eqb_refl.
  - destruct (existsb _ (enduserservice_divisions db)) eqn:E; [|reflexivity].
    exfalso. apply H. apply existsb_exists in E.
    destruct E as ([a b] & Hin & Hab). cbn [fst snd] in Hab.
    apply andb_prop in Hab. destruct Hab as [Ha Hb].
    apply Z.eqb_eq in Ha, Hb. subst a b. exact Hin.
Qed.

(** [service.divisions] holds every division linked to the service. *)
Lemma EndUserService_divisions_linked (db : DB) (s : EndUserService) :
  EndUserService_divisions db s = divisions_of db s.
Proof.
  unfold EndUserService_divisions, divisions_of. apply filter_ext.
  intros d. apply linked_participates.
Qed.


Lemma total_user_count_sum (db : DB) (service : EndUserService) :
  Decimal_of (EndUserService_total_user_count db service)
  = of_int (sum_user_count db service).
Proof.
  unfold EndUserService_total_user_count, sum_user_count.
  rewrite <- EndUserService_divisions_linked. apply Decimal_of_field_sum_int.
Qed.





(** ** Apportionment over a service without users *)

(** A loop raises when the body raises at some element whatever the
    accumulator, and the exception is one the body can raise. *)
Lemma foldM_raises {A B} (P : exception -> Prop) (f : B -> A -> result B)
    (l : list A) (x : A) :
  In x l ->
  (forall acc, exists e, f acc x = Raise e) ->
  (forall acc y e, f acc y = Raise e -> P e) ->
  forall acc, exists e, foldM f l acc = Raise e /\ P e.
Proof.
  intros Hin Hx HP. induction l as [|y l IH]; intros acc; [destruct Hin|].
  simpl. destruct (f acc y) as [acc'|e] eqn:Hy; simpl.
  - destruct Hin as [->|Hin]; [|now apply IH].
    destruct (Hx acc) as (e & He). congruence.
  - exists e. split; [reflexivity | exact (HP _ _ _ Hy)].
Qed.

(** A division by a zero Decimal raises one of the two division errors. *)
Lemma div_by_zero (a b : Decimal) :
  is_zero b = true ->
  div a b = Raise (if is_zero a then InvalidOperation DivisionUndefined
                   else DivisionByZero).
Proof. intros Hb. unfold div. rewrite Hb. destruct (is_zero a); reflexivity. Qed.

Lemma div_Raise (a b : Decimal) (e : exception) :
  div a b = Raise e -> division_error e.
Proof.
  unfold div. destruct (is_zero b).
  - destruct (is_zero a); intros [= <-]; [now right | now left].
  - destruct (is_zero a); [discriminate|].
    destruct (if 0 <=? _ then _ else _) as [q r].
    destruct (r =? 0); [|discriminate].
    destruct (strip_zeros _ q _); discriminate.
Qed.

Lemma round_Raise (d : Decimal) (n : Z) (e : exception) :
  round d n = Raise e -> e = InvalidOperation TooManyDigits.
Proof.
  unfold round, quantize. destruct (is_zero d); [discriminate|].
  destruct (_ >? prec); [now intros [= <-]|].
  destruct (_ >? prec); [now intros [= <-] | discriminate].
Qed.

Section ZeroTotal.
Variable service_cost : DB -> EndUserService -> Decimal.
Variables (db : DB) (self : Division).

Let body (total : Decimal) (service : EndUserService) : result Decimal :=
  q <- div (of_int (user_count self))
           (Decimal_of (EndUserService_total_user_count db service)) ;;
  c <- Ok (service_cost db service) ;;
  r <- round (mul q c) 2 ;;
  Ok (add total r).

Lemma enduser_loop_zero_total (s : EndUserService) :
  In s (enduserservice_set db self) ->
  is_zero (Decimal_of (EndUserService_total_user_count db s)) = true ->
  exists e,
    foldM body (enduserservice_set db self) (of_int 0) = Raise e
    /\ (division_error e \/ e = InvalidOperation TooManyDigits).
Proof.
  intros Hin Hz. apply (foldM_raises _ body _ s Hin).
  - intros acc. unfold body. rewrite (div_by_zero _ _ Hz). eexists. reflexivity.
  - intros acc y e. unfold body.
    destruct (div _ _) as [q|e'] eqn:Hd; simpl.
    + destruct (round _ _) as [r|e'] eqn:Hr; simpl; [discriminate|].
      intros [= <-]. right. exact (round_Raise _ _ _ Hr).
    + intros [= <-]. left. exact (div_Raise _ _ _ Hd).
Qed.

Lemma enduser_loop_zero_total_first (s : EndUserService) (rest : list EndUserService) :
  enduserservice_set db self = s :: rest ->
  is_zero (Decimal_of (EndUserService_total_user_count db s)) = true ->
  foldM body (enduserservice_set db self) (of_int 0)
  = Raise (if user_count self =? 0 then InvalidOperation DivisionUndefined
           else DivisionByZero).
Proof.
  intros Hs Hz. rewrite Hs. cbn [foldM]. unfold body.
  rewrite (div_by_zero _ _ Hz). reflexivity.
Qed.

End ZeroTotal.

(** C6: for a division linked to a service whose total user count is
    zero, [cost()] and [cost_estimate()] return no value: they raise.
    The exception is the division error of that service (DivisionByZero,
    or InvalidOperation for 0 / 0) unless the loop stopped earlier, at
    another service, on its own division error or on a share that does
    not fit the context's digits; when the service comes first, it is
    exactly the division error. *)
Theorem Division_cost_zero_total_raises (db : DB) (d : Division) (s : EndUserService) :
  In s (enduserservice_set db d) ->
  is_zero (Decimal_of (EndUserService_total_user_count db s)) = true ->
  (exists e, cost db d = Raise e
             /\ (division_error e \/ e = InvalidOperation TooManyDigits))
  /\ (exists e, cost_estimate db d = Raise e
                /\ (division_error e \/ e = InvalidOperation TooManyDigits))
  /\ (forall rest, enduserservice_set db d = s :: rest ->
        exists e, division_error e
                  /\ cost db d = Raise e /\ cost_estimate db d = Raise e).
Proof.
  intros Hin Hz.
  pose (sc := fun db s => field_sum (map cost_cost (EndUserService_get_cost_queryset db s))).
  pose (sce := fun db s =>
                 field_sum (map cost_cost_estimate (EndUserService_get_cost_queryset db s))).
  split; [exact (enduser_loop_zero_total sc db d s Hin Hz)|].
  split; [exact (enduser_loop_zero_total sce db d s Hin Hz)|].
  intros rest Hs.
  exists (if user_count d =? 0 then InvalidOperation DivisionUndefined
          else DivisionByZero).
  split; [destruct (user_count d =? 0); [now right | now left]|].
  split.
  - exact (enduser_loop_zero_total_first sc db d s rest Hs Hz).
  - exact (enduser_loop_zero_total_first sce db d s rest Hs Hz).
Qed.

Lemma Division_cost_zero_total_raises_witness :
  In (mkEndUserService 1 "Desktop")
     (enduserservice_set nobody_db (mkDivision 1 "Parks" 0 3 0))
  /\ cost nobody_db (mkDivision 1 "Parks" 0 3 0)
     = Raise (InvalidOperation DivisionUndefined)
  /\ exists e, cost_estimate nobody_db (mkDivision 1 "Parks" 0 3 0) = Raise e
               /\ (division_error e \/ e = InvalidOperation TooManyDigits).
Proof.
  split; [now left|]. split; [reflexivity|].
  refine (proj1 (proj2 (Division_cost_zero_total_raises nobody_db
                          (mkDivision 1 "Parks" 0 3 0)
                          (mkEndUserService 1 "Desktop") _ eq_refl))).
  now left.
Defined.

(** ** Allocation of a bill *)

Lemma add_exact_two_places (a c : Z) :
  add_exact (mkDecimal a (-2)) (mkDecimal c (-2)) = mkDecimal (a + c) (-2).
Proof. unfold add_exact. cbn. now rewrite !Z.mul_1_r. Qed.

Lemma fold_add_exact_two_places (l : list Decimal) (a : Z) :
  (forall p, In p l -> two_places p) ->
  fold_left add_exact l (mkDecimal a (-2))
  = mkDecimal (a + fold_right Z.add 0 (map coef l)) (-2).
Proof.
  revert a. induction l as [|p l IH]; intros a Hl; simpl.
  - now rewrite Z.add_0_r.
  - assert (Hp : two_places p) by (apply Hl; now left).
    destruct p as [c e]. red in Hp. simpl in Hp. subst e.
    rewrite add_exact_two_places, IH by (intros q Hq; apply Hl; now right).
    simpl. f_equal. lia.
Qed.

(** The store's sum of a column of two-place values. *)
Lemma Sum_two_places (l : list Decimal) :
  (forall p, In p l -> two_places p) ->
  Sum l = match l with
          | [] => None
          | _ => Some (mkDecimal (fold_right Z.add 0 (map coef l)) (-2))
          end.
Proof.
  destruct l as [|p l]; intros Hl; [reflexivity|].
  assert (Hp : two_places p) by (apply Hl; now left).
  destruct p as [c e]. red in Hp. simpl in Hp. subst e.
  cbn [Sum]. rewrite fold_add_exact_two_places by (intros q Hq; apply Hl; now right).
  reflexivity.
Qed.

Lemma compare_two_places_int (s n : Z) :
  compare (mkDecimal s (-2)) (of_int n) = Z.compare s (n * 100).
Proof. unfold compare, of_int. cbn. now rewrite Z.mul_1_r. Qed.

(** A sum of values that are not negative is zero only if all are. *)
Lemma sum_nonneg (l : list Z) :
  (forall x, In x l -> 0 <= x) ->
  0 <= fold_right Z.add 0 l
  /\ (fold_right Z.add 0 l = 0 <-> forall x, In x l -> x = 0).
Proof.
  induction l as [|x l IH]; intros Hl; simpl.
  - split; [lia|]. split; [intros _ y [] | reflexivity].
  - destruct IH as [Hs Hz]; [intros y Hy; apply Hl; now right|].
    assert (Hx : 0 <= x) by (apply Hl; now left).
    split; [lia|]. split.
    + intros E y [<-|Hy]; [lia|]. apply Hz; [lia | exact Hy].
    + intros H. rewrite (H x (or_introl eq_refl)).
      rewrite (proj2 Hz); [reflexivity|]. intros y Hy. apply H. now right.
Qed.

(** [self.cost_items.all()] holds the Cost rows of the bill. *)
Lemma cost_items_rows (db : DB) (b : Bill) (r : Cost) :
  In r (cost_items db b) <-> In r (costs db) /\ cost_bill r = bill_pk b.
Proof. unfold cost_items. now rewrite filter_In, Z.eqb_eq. Qed.

Lemma cost_items_sum (db : DB) (b : Bill) :
  fold_right Z.add 0 (map (fun c => coef (percentage c)) (cost_items db b))
  = allocated_hundredths db b.
Proof.
  unfold cost_items, allocated_hundredths.
  induction (costs db) as [|r rows IH]; [reflexivity|]. cbn [filter map fold_right].
  destruct (Z.eqb_spec (cost_bill r) (bill_pk b)) as [E|N];
    destruct (Z.eq_dec (cost_bill r) (bill_pk b)) as [E'|N']; try contradiction.
  - cbn [map fold_right]. now rewrite IH.
  - now rewrite IH.
Qed.

Lemma cost_items_none (db : DB) (b : Bill) :
  (forall r, In r (costs db) -> cost_bill r <> bill_pk b) -> cost_items db b = [].
Proof.
  intros H. destruct (cost_items db b) as [|r l] eqn:E; [reflexivity|]. exfalso.
  assert (Hr : In r (cost_items db b)) by (rewrite E; now left).
  apply cost_items_rows in Hr. destruct Hr as [Hin Hk]. exact (H r Hin Hk).
Qed.

Section Allocation.
Variables (db : DB) (b : Bill).
Hypothesis Hstored : percentages_stored db b.

Let s := allocated_hundredths db b.

Lemma items_two_places : forall c, In c (cost_items db b) -> two_places (percentage c).
Proof. intros c Hc. apply cost_items_rows in Hc. now apply Hstored. Qed.

Lemma percentages_two_places :
  forall p, In p (map percentage (cost_items db b)) -> two_places p.
Proof.
  intros p Hp. apply in_map_iff in Hp. destruct Hp as (c & <- & Hc).
  exact (items_two_places c Hc).
Qed.

Lemma allocated_hundredths_map :
  fold_right Z.add 0 (map coef (map percentage (cost_items db b))) = s.
Proof. rewrite map_map. apply cost_items_sum. Qed.

Lemma annotation_sum :
  cost_items__percentage__sum db b
  = match cost_items db b with
    | [] => None
    | _ => Some (mkDecimal s (-2))
    end.
Proof.
  unfold cost_items__percentage__sum.
  rewrite (Sum_two_places _ percentages_two_places), allocated_hundredths_map.
  destruct (cost_items db b); reflexivity.
Qed.

Lemma allocated_empty : cost_items db b = [] -> s = 0.
Proof. intros E. unfold s. now rewrite <- cost_items_sum, E. Qed.

Lemma Bill_allocated_value :
  Bill_allocated db b = if s =? 0 then PyInt 0 else PyDecimal (mkDecimal s (-2)).
Proof.
  unfold Bill_allocated, field_sum.
  change (Sum (map percentage (cost_items db b)))
    with (cost_items__percentage__sum db b).
  rewrite annotation_sum.
  destruct (cost_items db b) eqn:E.
  - now rewrite (allocated_empty E).
  - unfold is_zero. cbn [coef].
    destruct (s =? 0) eqn:E0; cbn [coef of_int]; [reflexivity|].
    now rewrite E0.
Qed.

Hypothesis Hnonneg :
  forall c, In c (costs db) -> cost_bill c = bill_pk b -> 0 <= coef (percentage c).

Lemma items_nonneg : forall c, In c (cost_items db b) -> 0 <= coef (percentage c).
Proof. intros c Hc. apply cost_items_rows in Hc. now apply Hnonneg. Qed.

Lemma allocated_nonneg :
  0 <= s /\ (s = 0 <-> forall c, In c (cost_items db b) -> coef (percentage c) = 0).
Proof.
  unfold s. rewrite <- cost_items_sum.
  destruct (sum_nonneg (map (fun c => coef (percentage c)) (cost_items db b)))
    as [Hs Hz].
  { intros x Hx. apply in_map_iff in Hx. destruct Hx as (c & <- & Hc).
    now apply items_nonneg. }
  split; [exact Hs|]. rewrite Hz. split.
  - intros H c Hc. apply H. apply in_map_iff. now exists c.
  - intros H x Hx. apply in_map_iff in Hx. destruct Hx as (c & <- & Hc). now apply H.
Qed.

(** No row with a percentage above zero: the sum is zero. *)
Lemma no_positive_row :
  negb (existsb (fun c => gtb (percentage c) (of_int 0)) (cost_items db b)) = true
  <-> s = 0.
Proof.
  rewrite negb_true_iff, (proj2 allocated_nonneg). split.
  - intros H c Hc. pose proof (items_two_places c Hc) as Hp.
    pose proof (items_nonneg c Hc) as Hlo.
    assert (Hg : gtb (percentage c) (of_int 0) = false).
    { destruct (gtb (percentage c) (of_int 0)) eqn:G; [|reflexivity].
      assert (existsb (fun c => gtb (percentage c) (of_int 0)) (cost_items db b) = true)
        by (apply existsb_exists; now exists c).
      congruence. }
    destruct (percentage c) as [n e]. red in Hp. simpl in Hp, Hlo. subst e.
    unfold gtb in Hg. rewrite compare_two_places_int in Hg. simpl in *.
    destruct (Z.compare_spec n 0); [assumption | lia | discriminate].
  - intros H. destruct (existsb _ _) eqn:E; [|reflexivity].
    apply existsb_exists in E. destruct E as (c & Hc & Hg).
    pose proof (items_two_places c Hc) as Hp. specialize (H c Hc).
    destruct (percentage c) as [n e]. red in Hp. simpl in Hp, H. subst e n.
    discriminate Hg.
Qed.

Lemma having_sum (p : Decimal -> bool) :
  having db p b = match cost_items db b with
                  | [] => false
                  | _ => p (mkDecimal s (-2))
                  end.
Proof.
  unfold having. rewrite annotation_sum. destruct (cost_items db b); reflexivity.
Qed.

(** Membership of the bill in each filtered queryset, by its sum. *)
Lemma queryset_by_sum (qs : list Bill) (value title : string) :
  In b qs ->
  In (value, title) lookups ->
  exists l, queryset db value qs = Some l
            /\ (In b l <-> title = classification s).
Proof.
  intros Hb Hl.
  pose proof allocated_nonneg as [Hs _].
  assert (Hhav : forall p, having db p b = true <->
                   (cost_items db b <> [] /\ p (mkDecimal s (-2)) = true)).
  { intros p. rewrite having_sum. destruct (cost_items db b); split.
    - discriminate.
    - intros [H _]. now contradiction H.
    - intros H. split; [discriminate | exact H].
    - intros [_ H]. exact H. }
  assert (Hne : s <> 0 -> cost_items db b <> []).
  { intros H E. apply H. now apply allocated_empty. }
  unfold classification.
  destruct Hl as [E|[E|[E|[E|[]]]]]; injection E as <- <-;
    (eexists; split; [reflexivity|]); rewrite filter_In.
  - rewrite no_positive_row. destruct (Z.eqb_spec s 0) as [E|N].
    + tauto.
    + split; [intros [_ H]; contradiction|].
      destruct (s <? 10000); [discriminate|]. destruct (s =? 10000); discriminate.
  - rewrite Hhav. unfold ltb, gtb. rewrite !compare_two_places_int.
    destruct (Z.eqb_spec s 0) as [E|N].
    + split; [|discriminate]. intros [_ [_ H]]. rewrite E in H. simpl in H.
      discriminate H.
    + destruct (Z.ltb_spec s 10000) as [L|G].
      * split; [reflexivity|]. intros _. split; [exact Hb|]. split; [now apply Hne|].
        rewrite (proj2 (Z.compare_lt_iff s (100 * 100))) by lia.
        rewrite (proj2 (Z.compare_gt_iff s (0 * 100))) by lia. reflexivity.
      * split.
        -- intros [_ [_ H]]. exfalso.
           destruct (Z.compare_spec s (100 * 100)); try discriminate H. lia.
        -- destruct (s =? 10000); discriminate.
  - rewrite Hhav. unfold decimal.eqb. rewrite compare_two_places_int.
    destruct (Z.eqb_spec s 0) as [E|N].
    + split; [|discriminate]. intros [_ [_ H]]. rewrite E in H. simpl in H.
      discriminate H.
    + destruct (Z.ltb_spec s 10000) as [L|G].
      * split; [|discriminate]. intros [_ [_ H]]. exfalso.
        destruct (Z.compare_spec s (100 * 100)); try discriminate H. lia.
      * destruct (Z.eqb_spec s 10000) as [E|N'].
        -- split; [reflexivity|]. intros _. split; [exact Hb|].
           split; [now apply Hne|]. rewrite E. reflexivity.
        -- split; [|discriminate]. intros [_ [_ H]]. exfalso.
           destruct (Z.compare_spec s (100 * 100)); try discriminate H. lia.
  - rewrite Hhav. unfold gtb. rewrite compare_two_places_int.
    destruct (Z.eqb_spec s 0) as [E|N].
    + split; [|discriminate]. intros [_ [_ H]]. rewrite E in H. simpl in H.
      discriminate H.
    + destruct (Z.ltb_spec s 10000) as [L|G].
      * split; [|discriminate]. intros [_ [_ H]]. exfalso.
        destruct (Z.compare_spec s (100 * 100)); try discriminate H. lia.
      * destruct (Z.eqb_spec s 10000) as [E|N'].
        -- split; [|discriminate]. intros [_ [_ H]]. rewrite E in H.
           discriminate H.
        -- split; [reflexivity|]. intros _. split; [exact Hb|].
           split; [now apply Hne|].
           rewrite (proj2 (Z.compare_gt_iff s (100 * 100))) by lia. reflexivity.
Qed.

End Allocation.

(** Whether [cost.save()] returns is decided by the bills and by the
    instance alone. *)
Lemma Cost_save_cached_returns_iff (cached : option Bill) (db : DB) (c : Cost) :
  (exists db', Cost_save_cached cached db c = Ok db')
  <-> exists b c1 p v ve,
        Cost_bill db cached c = Ok b
        /\ Cost_pre_save b c = Ok c1
        /\ db_prep 5 (percentage c1) = Ok p
        /\ db_prep 12 (cost_cost c1) = Ok v
        /\ db_prep 12 (cost_cost_estimate c1) = Ok ve
        /\ references bill_pk (bills db) (cost_bill c) = Ok tt.
Proof.
  split.
  - intros (db' & H). apply Cost_save_cached_inv in H.
    destruct H as (b & c1 & p & v & ve & H1 & H2 & H3 & H4 & H5 & H6 & _).
    now exists b, c1, p, v, ve.
  - intros (b & c1 & p & v & ve & H1 & H2 & H3 & H4 & H5 & H6).
    destruct (Cost_pre_save_inv _ _ _ H2) as (v0 & ve0 & Hv0 & Hve0 & ->).
    cbn [percentage cost_cost cost_cost_estimate set_cost set_cost_estimate] in H3, H4, H5.
    eexists.
    exact (Cost_save_cached_steps cached db c b v0 ve0 p v ve H1 Hv0 Hve0 H3 H4 H5 H6).
Qed.

(** C7, as amended: [allocated()] is the sum of the percentages of the
    rows whose bill is this bill (the int 0 when the sum is zero, so
    also when there is no such row); when none of these percentages is
    negative, the bill is in the queryset of a lookup exactly when the
    lookup's title is the class of that sum: "None" for 0, "Partially"
    between 0 and 100, "100%" at 100, "Over allocated" above.  No save
    of a Cost is refused on account of the other rows, and a bill
    allocated at 120% is stored and flagged. *)
Theorem Bill_allocated_classification :
  (forall (db : DB) (b : Bill),
      percentages_stored db b ->
      let s := allocated_hundredths db b in
      Bill_allocated db b = (if s =? 0 then PyInt 0 else PyDecimal (mkDecimal s (-2)))
      /\ ((forall c, In c (costs db) -> cost_bill c <> bill_pk b) ->
          Bill_allocated db b = PyInt 0)
      /\ ((forall c, In c (costs db) -> cost_bill c = bill_pk b ->
                     0 <= coef (percentage c)) ->
          forall qs value title,
            In b qs ->
            In (value, title) lookups ->
            exists l, queryset db value qs = Some l
                      /\ (In b l <-> title = classification s)))
  /\ (forall (cached : option Bill) (db1 db2 : DB) (c : Cost),
         bills db1 = bills db2 ->
         (exists db', Cost_save_cached cached db1 c = Ok db')
         <-> (exists db', Cost_save_cached cached db2 c = Ok db'))
  /\ (exists db' l,
         Cost_save example_db extra_line = Ok db'
         /\ allocated_hundredths db' (example_bill true) = 12000
         /\ queryset db' "gt_100" (bills db') = Some l
         /\ In (example_bill true) l).
Proof.
  split; [|split].
  - intros db b Hstored s. split; [|split].
    + exact (Bill_allocated_value db b Hstored).
    + intros Hnone. unfold Bill_allocated. now rewrite (cost_items_none db b Hnone).
    + intros Hnonneg qs value title Hb Hl.
      exact (queryset_by_sum db b Hstored Hnonneg qs value title Hb Hl).
  - intros cached db1 db2 c Hbills. rewrite !Cost_save_cached_returns_iff.
    unfold Cost_bill. rewrite Hbills. reflexivity.
  - eexists. eexists. split; [vm_compute; reflexivity|].
    split; [reflexivity|]. split; [vm_compute; reflexivity|]. now left.
Qed.

Lemma nonneg_example :
  forall c, In c (costs example_db) -> cost_bill c = bill_pk (example_bill true) ->
            0 <= coef (percentage c).
Proof.
  intros c Hc _. simpl in Hc. destruct Hc as [<-|[<-|[]]]; simpl; lia.
Qed.

Lemma Bill_allocated_classification_witness :
  allocated_hundredths example_db (example_bill true) = 10000
  /\ Bill_allocated example_db (example_bill true)
     = PyDecimal (mkDecimal 10000 (-2))
  /\ exists l, queryset example_db "100" (bills example_db) = Some l
               /\ In (example_bill true) l.
Proof.
  split; [reflexivity|].
  destruct (proj1 Bill_allocated_classification example_db (example_bill true)
              (percentages_stored_example (example_bill true)))
    as (Ha & _ & Hq).
  split; [exact Ha|].
  destruct (Hq nonneg_example (bills example_db) "100"%string "100%"%string
              (or_introl eq_refl))
    as (l & Hl & Hin).
  { right. right. now left. }
  exists l. split; [exact Hl|]. apply Hin. reflexivity.
Defined.

(** C7, as the claim states it, fails on a bill that has a line of
    -10% and a line of +10%: the percentages sum to 0, the class of the
    sum is "None", and the bill is not in the queryset of that lookup,
    which holds the bills without a line above 0. *)
Lemma Bill_allocated_classification_counterexample :
  ~ (forall (db : DB) (b : Bill) (qs : list Bill) (value title : string),
       In b qs ->
       In (value, title) lookups ->
       exists l, queryset db value qs = Some l
                 /\ (In b l <-> title = classification (allocated_hundredths db b))).
Proof.
  intros H.
  destruct (H offset_db (example_bill true) (bills offset_db) "0"%string "None"%string)
    as (l & Hl & Hiff).
  - now left.
  - now left.
  - vm_compute in Hl. injection Hl as <-.
    destruct (proj2 Hiff eq_refl).
Qed.

(** * Further properties of the code *)

(** ** The reference year *)

(** X1: a FinancialYear that is the only one to end no later than itself
    is the reference year, wherever it is stored among the others. *)
Theorem year_is_the_only_least (db : DB) (y : FinancialYear) :
  In y (financialyears db) ->
  (forall z, In z (financialyears db) -> fy_end z <= fy_end y -> z = y) ->
  year db = Some y.
Proof.
  intros Hin Honly.
  destruct (first_order_by_least fy_end (financialyears db)) as (y' & Hy' & Hin' & Hmin).
  { intros E. rewrite E in Hin. destruct Hin. }
  unfold year. rewrite Hy'. f_equal. apply Honly; [exact Hin'|].
  now apply Hmin.
Qed.

Lemma year_is_the_only_least_witness :
  year example_db = Some (mkFinancialYear 1 739068 739432).
Proof.
  apply (year_is_the_only_least example_db (mkFinancialYear 1 739068 739432)).
  - right. now left.
  - intros z [<-|[<-|[]]] Hz; [simpl in Hz; lia | reflexivity].
Defined.

Lemma sgn_square (c : Z) : c <> 0 -> Z.sgn c * Z.sgn c = 1.
Proof. destruct c; [contradiction | reflexivity | reflexivity]. Qed.

Lemma strip_zeros_pow_Z (k : Z) (fuel : nat) (c e : Z) :
  0 <= k ->
  strip_zeros (Z.to_nat k + fuel) (c * 10 ^ k) e = strip_zeros fuel c (e + k).
Proof.
  intros Hk. rewrite <- (Z2Nat.id k Hk) at 2 3. apply strip_zeros_pow.
Qed.

(** A non-zero Decimal divided by itself is [Decimal(1)]. *)
Lemma div_self (a : Decimal) : is_zero a = false -> div a a = Ok (of_int 1).
Proof.
  intros Hz. unfold div. rewrite Hz.
  assert (Hc : coef a <> 0) by (unfold is_zero in Hz; now apply Z.eqb_neq).
  set (ca := Z.abs (coef a)).
  assert (Hca : ca <> 0) by (unfold ca; lia).
  replace (ndigits ca - ndigits ca + prec + 1) with 29 by (unfold prec; lia).
  replace (exp a - exp a) with 0 by lia.
  change (0 <=? 29) with true. cbv iota.
  set (p := 10 ^ 29).
  rewrite div_eucl_div_mod.
  rewrite (Z.mul_comm ca), Z.div_mul, Z.mod_mul by exact Hca. cbn [Z.eqb].
  replace (Z.to_nat (0 - (0 - 29))) with (Z.to_nat 29 + 0)%nat by lia.
  rewrite <- (Z.mul_1_l p). unfold p.
  rewrite strip_zeros_pow_Z by lia. cbn [strip_zeros].
  rewrite sgn_square by exact Hc. vm_compute. reflexivity.
Qed.

(** X2: an entity whose cost is the whole cost of the reference year, the
    year itself for one, has a cost percentage of 100.00 when that cost
    is not zero; likewise for the estimates. *)
Theorem whole_year_percentage {M} `{CostSummary M} (db : DB) (self : M)
    (y : FinancialYear) :
  year db = Some y ->
  (forall c, cost db y = Ok c -> cost db self = Ok c -> is_zero c = false ->
             cost_percentage db self = Ok (PyDecimal (mkDecimal 10000 (-2))))
  /\ (forall c, cost_estimate db y = Ok c -> cost_estimate db self = Ok c ->
                is_zero c = false ->
                cost_estimate_percentage db self = Ok (PyDecimal (mkDecimal 10000 (-2)))).
Proof.
  intros Hy. unfold cost_percentage, cost_estimate_percentage. rewrite Hy.
  split; intros c Hyc Hc Hz; rewrite Hyc; cbn [bind]; rewrite eqb_zero, Hz, Hc;
    cbn [bind]; rewrite (div_self c Hz); vm_compute; reflexivity.
Qed.

Lemma whole_year_percentage_witness :
  cost_percentage example_db (mkFinancialYear 1 739068 739432)
  = Ok (PyDecimal (mkDecimal 10000 (-2))).
Proof.
  apply (proj1 (whole_year_percentage example_db (mkFinancialYear 1 739068 739432)
                  (mkFinancialYear 1 739068 739432) eq_refl)
           (mkDecimal 100000 (-2))); vm_compute; reflexivity.
Defined.

(** ** Shares of a division *)

Lemma mul_one_l (c : Decimal) :
  Z.abs (coef c) < 10 ^ prec -> mul (of_int 1) c = c.
Proof.
  intros Hc. rewrite mul_exact.
  - cbn [coef exp of_int]. rewrite Z.mul_1_l. destruct c; reflexivity.
  - cbn [coef of_int]. now rewrite Z.mul_1_l.
Qed.

Lemma round_two_places (c : Decimal) :
  fits prec c -> round c 2 = Ok c.
Proof.
  intros [Hp Hc]. red in Hp. unfold round.
  change (- (2)) with (-2). rewrite <- Hp.
  unfold quantize. destruct (is_zero c) eqn:Hz.
  - unfold is_zero in Hz. apply Z.eqb_eq in Hz. destruct c; simpl in *. now subst.
  - pose proof (ndigits_le (coef c) prec ltac:(unfold prec; lia) Hc) as Hle.
    assert (Hgt : (ndigits (coef c) >? prec) = false)
      by (rewrite Z.gtb_ltb; apply Z.ltb_ge; exact Hle).
    unfold adjusted.
    replace (exp c + ndigits (coef c) - 1 - exp c + 1) with (ndigits (coef c)) by lia.
    now rewrite Hgt, rescale_same, Hgt.
Qed.

Lemma add_zero_l (c : Decimal) :
  fits prec c -> add (of_int 0) c = c.
Proof.
  intros [Hp Hc]. red in Hp. unfold add. destruct c as [x e]. simpl in Hp, Hc. subst e.
  unfold add_exact. cbn [coef exp of_int Z.min Z.compare Z.sub Z.add Z.opp Z.pos_sub].
  change (0 * 10 ^ 2 + x * 10 ^ 0) with (x * 1). rewrite Z.mul_1_r.
  now apply fix_small.
Qed.

(** X3: a division that has all the users of the one service it is
    linked to bears that service's whole cost and whole estimate. *)
Theorem sole_division_bears_the_cost (db : DB) (d : Division) (s : EndUserService)
    (c ce : Decimal) :
  enduserservice_set db d = [s] ->
  user_count d <> 0 ->
  sum_user_count db s = user_count d ->
  cost db s = Ok c -> fits prec c ->
  cost_estimate db s = Ok ce -> fits prec ce ->
  cost db d = Ok c /\ cost_estimate db d = Ok ce.
Proof.
  intros Hs Hu Ht Hc Hfc Hce Hfce.
  assert (Hone : div (of_int (user_count d)) (of_int (user_count d)) = Ok (of_int 1)).
  { apply div_self. unfold is_zero. now apply Z.eqb_neq. }
  split.
  - change (cost db d) with (Division_enduser_cost db d).
    unfold Division_enduser_cost. rewrite Hs. cbn [foldM].
    rewrite total_user_count_sum, Ht, Hone. cbn [bind]. rewrite Hc. cbn [bind].
    rewrite mul_one_l by apply Hfc. rewrite round_two_places by exact Hfc.
    cbn [bind]. now rewrite add_zero_l.
  - change (cost_estimate db d) with (Division_enduser_estimate db d).
    unfold Division_enduser_estimate. rewrite Hs. cbn [foldM].
    rewrite total_user_count_sum, Ht, Hone. cbn [bind]. rewrite Hce. cbn [bind].
    rewrite mul_one_l by apply Hfce. rewrite round_two_places by exact Hfce.
    cbn [bind]. now rewrite add_zero_l.
Qed.

Lemma sole_division_bears_the_cost_witness :
  cost sole_db (mkDivision 1 "Parks" 50 3 0) = Ok (mkDecimal 100000 (-2))
  /\ cost_estimate sole_db (mkDivision 1 "Parks" 50 3 0) = Ok (mkDecimal 120000 (-2)).
Proof.
  apply (sole_division_bears_the_cost sole_db (mkDivision 1 "Parks" 50 3 0)
           (mkEndUserService 1 "Desktop")).
  - reflexivity.
  - discriminate.
  - reflexivity.
  - reflexivity.
  - split; [reflexivity | vm_compute; reflexivity].
  - reflexivity.
  - split; [reflexivity | vm_compute; reflexivity].
Defined.

Lemma div_zero_l (b : Decimal) :
  is_zero b = false -> exists q, div (of_int 0) b = Ok q /\ is_zero q = true.
Proof.
  intros Hb. unfold div. rewrite Hb. change (is_zero (of_int 0)) with true. cbv iota.
  eexists. split; [reflexivity|]. rewrite fix_small; [reflexivity|].
  cbn [coef]. apply pow10_pos. unfold prec. lia.
Qed.

Lemma mul_zero_l (q c : Decimal) : is_zero q = true -> is_zero (mul q c) = true.
Proof.
  unfold is_zero. intros Hq. apply Z.eqb_eq in Hq. unfold mul. rewrite Hq, Z.mul_0_l.
  rewrite fix_small; [reflexivity|]. cbn [coef]. apply pow10_pos. unfold prec. lia.
Qed.

Lemma round_zero (z : Decimal) (n : Z) :
  is_zero z = true -> round z n = Ok (mkDecimal 0 (- n)).
Proof. intros Hz. unfold round, quantize. now rewrite Hz. Qed.

Lemma add_zero_zero (a b : Decimal) :
  is_zero a = true -> is_zero b = true -> is_zero (add a b) = true.
Proof.
  unfold is_zero. intros Ha Hb. apply Z.eqb_eq in Ha, Hb.
  unfold add, add_exact. rewrite Ha, Hb, !Z.mul_0_l.
  rewrite fix_small; [reflexivity|]. cbn [coef Z.add]. apply pow10_pos. unfold prec. lia.
Qed.

Section NoUsers.
Variable service_cost : DB -> EndUserService -> Decimal.
Variables (db : DB) (self : Division).
Hypothesis Hnone : user_count self = 0.

Lemma enduser_loop_no_users (l : list EndUserService) :
  (forall s, In s l -> sum_user_count db s <> 0) ->
  forall acc, is_zero acc = true ->
    exists v,
      foldM (fun total service =>
               q <- div (of_int (user_count self))
                        (Decimal_of (EndUserService_total_user_count db service)) ;;
               c <- Ok (service_cost db service) ;;
               r <- round (mul q c) 2 ;;
               Ok (add total r)) l acc = Ok v
      /\ is_zero v = true.
Proof.
  set (body := fun (total : Decimal) (service : EndUserService) => _).
  induction l as [|s l IH]; intros Hl acc Hacc.
  - exists acc. now split.
  - cbn [foldM]. unfold body at 1. rewrite total_user_count_sum, Hnone.
    destruct (div_zero_l (of_int (sum_user_count db s))) as (q & -> & Hq).
    { unfold is_zero. apply Z.eqb_neq. apply Hl. now left. }
    cbn [bind]. rewrite (round_zero _ 2 (mul_zero_l q _ Hq)). cbn [bind].
    apply IH; [intros s' Hs'; apply Hl; now right|].
    now apply add_zero_zero.
Qed.

End NoUsers.

(** X4: a division without users, linked only to services that have
    users, has a cost and an estimate of zero. *)
Theorem division_without_users_pays_nothing (db : DB) (d : Division) :
  user_count d = 0 ->
  (forall s, In s (enduserservice_set db d) -> sum_user_count db s <> 0) ->
  exists v ve, cost db d = Ok v /\ is_zero v = true
               /\ cost_estimate db d = Ok ve /\ is_zero ve = true.
Proof.
  intros Hu Hl.
  pose (sc := fun db s => field_sum (map cost_cost (EndUserService_get_cost_queryset db s))).
  pose (sce := fun db s =>
                 field_sum (map cost_cost_estimate (EndUserService_get_cost_queryset db s))).
  destruct (enduser_loop_no_users sc db d Hu _ Hl (of_int 0) eq_refl) as (v & Hv & Hvz).
  destruct (enduser_loop_no_users sce db d Hu _ Hl (of_int 0) eq_refl) as (ve & Hve & Hvez).
  exists v, ve. split; [exact Hv|]. split; [exact Hvz|]. split; [exact Hve | exact Hvez].
Qed.

Lemma division_without_users_pays_nothing_witness :
  sum_user_count idle_db (mkEndUserService 1 "Desktop") = 150
  /\ exists v ve,
       cost idle_db (mkDivision 1 "Parks" 0 3 0) = Ok v /\ is_zero v = true
       /\ cost_estimate idle_db (mkDivision 1 "Parks" 0 3 0) = Ok ve
       /\ is_zero ve = true.
Proof.
  split; [reflexivity|].
  apply (division_without_users_pays_nothing idle_db (mkDivision 1 "Parks" 0 3 0)).
  - reflexivity.
  - intros s [<-|[]]. discriminate.
Defined.

(** ** What the cascade leaves alone *)

Lemma Forall2_compose {A} (R1 R2 R3 : A -> A -> Prop) (l1 l2 l3 : list A) :
  (forall x y z, R1 x y -> R2 y z -> R3 x z) ->
  Forall2 R1 l1 l2 -> Forall2 R2 l2 l3 -> Forall2 R3 l1 l3.
Proof.
  intros H H1. revert l3. induction H1 as [|x y l1 l2 Hxy _ IH]; intros l3 H2.
  - inversion H2. constructor.
  - inversion H2 as [|y' z l2' l3' Hyz H2']; subst.
    constructor; [now apply (H x y z) | now apply IH].
Qed.

Lemma Forall2_In_r {A} (R : A -> A -> Prop) (l l' : list A) (y : A) :
  Forall2 R l l' -> In y l' -> exists x, In x l /\ R x y.
Proof.
  induction 1 as [|x y' l l' Hxy _ IH]; intros Hin; [destruct Hin|].
  destruct Hin as [<-|Hin].
  - exists x. split; [now left | exact Hxy].
  - destruct (IH Hin) as (x' & Hx' & HR). exists x'. split; [now right | exact HR].
Qed.

Lemma Forall2_In_l {A} (R : A -> A -> Prop) (l l' : list A) (x : A) :
  Forall2 R l l' -> In x l -> exists y, In y l' /\ R x y.
Proof.
  induction 1 as [|x' y l l' Hxy _ IH]; intros Hin; [destruct Hin|].
  destruct Hin as [<-|Hin].
  - exists y. split; [now left | exact Hxy].
  - destruct (IH Hin) as (y' & Hy' & HR). exists y'. split; [now right | exact HR].
Qed.

Lemma Forall2_impl_In {A} (R R' : A -> A -> Prop) (l l' : list A) :
  (forall x y, In x l -> In y l' -> R x y -> R' x y) ->
  Forall2 R l l' -> Forall2 R' l l'.
Proof.
  intros H H2. induction H2 as [|x y l l' Hxy _ IH]; constructor.
  - apply H; [now left | now left | exact Hxy].
  - apply IH. intros x' y' Hx' Hy'. apply H; now right.
Qed.

Lemma Forall2_map_r {A} (R : A -> A -> Prop) (f : A -> A) (l : list A) :
  (forall x, In x l -> R x (f x)) -> Forall2 R l (map f l).
Proof.
  induction l as [|x l IH]; intros H; simpl; constructor.
  - apply H. now left.
  - apply IH. intros y Hy. apply H. now right.
Qed.

Lemma attributes_pk (r r' : Cost) : attributes r' = attributes r -> cost_pk r' = cost_pk r.
Proof. unfold attributes. now intros [= -> _ _ _ _ _]. Qed.

Lemma attributes_dependent (b : Bill) (r r' : Cost) :
  attributes r' = attributes r -> dependent b r' -> dependent b r.
Proof.
  unfold attributes, dependent. intros [= _ _ Hb _ _ Hk]. now rewrite Hb, Hk.
Qed.

Lemma derived_fields_only_keys (P : Cost -> Prop) (rows rows' : list Cost) :
  derived_fields_only P rows rows' -> map cost_pk rows' = map cost_pk rows.
Proof.
  induction 1 as [|r r' rows rows' [Ha _] _ IH]; [reflexivity|].
  simpl. now rewrite IH, (attributes_pk _ _ Ha).
Qed.

(** One save of the cascade rewrites the rows of the instance's key and
    only their derived fields. *)
Lemma Cost_save_rows (db db' : DB) (c : Cost) :
  two_places (percentage c) ->
  In (cost_pk c) (map cost_pk (costs db)) ->
  (forall r, In r (costs db) -> cost_pk r = cost_pk c -> attributes r = attributes c) ->
  Cost_save db c = Ok db' ->
  bills db' = bills db
  /\ derived_fields_only (fun r => cost_pk r = cost_pk c) (costs db) (costs db').
Proof.
  intros Hp Hkey Hattr Hsave.
  apply Cost_save_inv in Hsave.
  destruct Hsave as (b & c1 & p & v & ve & _ & Hpre & Hqp & _ & _ & ->).
  destruct (Cost_pre_save_inv _ _ _ Hpre) as (v0 & ve0 & _ & _ & ->).
  cbn [percentage set_cost set_cost_estimate] in Hqp.
  assert (Hpp : p = percentage c).
  { unfold db_prep in Hqp. red in Hp. rewrite <- Hp in Hqp.
    now apply quantize_same_exp in Hqp. }
  subst p. split; [reflexivity|].
  cbn [costs set_costs]. unfold write.
  set (x := set_cost_estimate _ ve).
  assert (Hx : attributes x = attributes c) by reflexivity.
  replace (existsb (fun r => cost_pk r =? cost_pk x) (costs db)) with true.
  - apply Forall2_map_r. intros r Hr.
    destruct (Z.eqb_spec (cost_pk r) (cost_pk x)) as [E|N].
    + split; [|intros H; now contradiction H].
      rewrite Hx. symmetry. now apply Hattr.
    + now split.
  - symmetry. apply existsb_exists. apply in_map_iff in Hkey.
    destruct Hkey as (r & Hr & Hin). exists r. split; [exact Hin|].
    now apply Z.eqb_eq.
Qed.

Lemma save_loop_rows (l : list Cost) :
  forall db db',
    foldM Cost_save l db = Ok db' ->
    (forall c, In c l ->
       two_places (percentage c) /\ In (cost_pk c) (map cost_pk (costs db))) ->
    (forall c r, In c l -> In r (costs db) -> cost_pk r = cost_pk c ->
       attributes r = attributes c) ->
    bills db' = bills db
    /\ derived_fields_only (fun r => exists c, In c l /\ cost_pk r = cost_pk c)
         (costs db) (costs db').
Proof.
  induction l as [|c l IH]; intros db db' Hfold Hl Hattr.
  - injection Hfold as <-. split; [reflexivity|].
    unfold derived_fields_only. rewrite <- (map_id (costs db)) at 2.
    apply Forall2_map_r. now split.
  - simpl in Hfold. apply bind_Ok_inv in Hfold.
    destruct Hfold as (db1 & Hsave & Hfold).
    destruct (Hl c (or_introl eq_refl)) as [Hp Hk].
    destruct (Cost_save_rows db db1 c Hp Hk
                (fun r Hr => Hattr c r (or_introl eq_refl) Hr) Hsave) as [Hb1 F1].
    destruct (IH db1 db' Hfold) as [Hb2 F2].
    + intros c' Hc'. destruct (Hl c' (or_intror Hc')) as [Hp' Hk'].
      split; [exact Hp'|]. now rewrite (derived_fields_only_keys _ _ _ F1).
    + intros c' r1 Hc' Hr1 Hk1.
      destruct (Forall2_In_r _ _ _ _ F1 Hr1) as (r & Hr & [Ha _]).
      rewrite Ha. apply (Hattr c' r (or_intror Hc') Hr).
      now rewrite <- (attributes_pk _ _ Ha).
    + split; [congruence|].
      refine (Forall2_compose _ _ _ _ _ _ _ F1 F2).
      intros x y z [Ha1 Hn1] [Ha2 Hn2]. split; [congruence|].
      intros Hnot.
      assert (Hyx : y = x).
      { apply Hn1. intros E. apply Hnot. exists c. split; [now left | exact E]. }
      subst y. apply Hn2. intros (c' & Hc' & E). apply Hnot.
      exists c'. split; [now right | exact E].
Qed.

(** The cascade of a bill rewrites the derived fields of the bill's
    EndUserCost and ITPlatformCost rows and nothing else of the Cost
    table. *)
Lemma Bill_post_save_rows (db db' : DB) (self : Bill) :
  primary_key (costs db) ->
  percentages_stored db self ->
  Bill_post_save db self = Ok db' ->
  bills db' = bills db
  /\ derived_fields_only (dependent self) (costs db) (costs db').
Proof.
  intros Hpk Hwf Hpost. unfold Bill_post_save in Hpost.
  apply bind_Ok_inv in Hpost. destruct Hpost as (db1 & H1 & H2).
  destruct (save_loop_rows _ _ _ H1) as [Hb1 F1].
  { intros c Hc. apply filter_In in Hc. destruct Hc as [Hc Hf].
    apply andb_prop in Hf. destruct Hf as [Hk _]. apply Z.eqb_eq in Hk.
    split; [now apply Hwf | now apply in_map]. }
  { intros c r Hc Hr Hk. apply filter_In in Hc. destruct Hc as [Hc _].
    now rewrite (Hpk r c Hr Hc Hk). }
  assert (Hfrom : forall c, In c (costs db1) ->
                    exists c0, In c0 (costs db) /\ attributes c = attributes c0).
  { intros c Hc. destruct (Forall2_In_r _ _ _ _ F1 Hc) as (c0 & Hc0 & [Ha _]).
    now exists c0. }
  assert (Hsame : forall c r, In c (costs db1) -> In r (costs db1) ->
                    cost_pk r = cost_pk c -> attributes r = attributes c).
  { intros c r Hc Hr Hk.
    destruct (Hfrom c Hc) as (c0 & Hc0 & Hac). destruct (Hfrom r Hr) as (r0 & Hr0 & Har).
    rewrite Hac, Har. f_equal. apply Hpk; [exact Hr0 | exact Hc0 |].
    now rewrite <- (attributes_pk _ _ Hac), <- (attributes_pk _ _ Har). }
  destruct (save_loop_rows _ _ _ H2) as [Hb2 F2].
  { intros c Hc. apply filter_In in Hc. destruct Hc as [Hc Hf].
    apply andb_prop in Hf. destruct Hf as [Hk _]. apply Z.eqb_eq in Hk.
    split; [|now apply in_map].
    destruct (Hfrom c Hc) as (c0 & Hc0 & Ha).
    unfold attributes in Ha. injection Ha as _ _ Hbill Hperc _ _.
    rewrite Hperc. apply Hwf; [exact Hc0 | congruence]. }
  { intros c r Hc Hr Hk. apply filter_In in Hc. destruct Hc as [Hc _].
    now apply Hsame. }
  split; [congruence|].
  assert (F1' : derived_fields_only (dependent self) (costs db) (costs db1)).
  { refine (Forall2_impl_In _ _ _ _ _ F1).
    intros x y Hx _ [Ha Hn]. split; [exact Ha|].
    intros Hnot. apply Hn. intros (c & Hc & Hk). apply Hnot.
    apply filter_In in Hc. destruct Hc as [Hc Hf].
    apply andb_prop in Hf. destruct Hf as [Hkb Hkind]. apply Z.eqb_eq in Hkb.
    rewrite (Hpk x c Hx Hc Hk). split; [exact Hkb|].
    unfold is_EndUserCost in Hkind. intros E. now rewrite E in Hkind. }
  assert (F2' : derived_fields_only (dependent self) (costs db1) (costs db')).
  { refine (Forall2_impl_In _ _ _ _ _ F2).
    intros y z Hy _ [Ha Hn]. split; [exact Ha|].
    intros Hnot. apply Hn. intros (c & Hc & Hk). apply Hnot.
    apply filter_In in Hc. destruct Hc as [Hc Hf].
    apply andb_prop in Hf. destruct Hf as [Hkb Hkind]. apply Z.eqb_eq in Hkb.
    apply (attributes_dependent self y c (eq_sym (Hsame c y Hc Hy Hk))).
    split; [exact Hkb|].
    unfold is_ITPlatformCost in Hkind. intros E. now rewrite E in Hkind. }
  refine (Forall2_compose _ _ _ _ _ _ _ F1' F2').
  intros x y z [Ha1 Hn1] [Ha2 Hn2]. split; [congruence|].
  intros Hnot. assert (Hyx : y = x) by now apply Hn1.
  subst y. now apply Hn2.
Qed.

Lemma Bill_save_rows (db db' : DB) (b : Bill) :
  primary_key (costs db) ->
  percentages_stored db b ->
  Bill_save db b = Ok db' ->
  derived_fields_only (dependent b) (costs db) (costs db').
Proof.
  intros Hpk Hwf Hsave.
  unfold Bill_save, Bill_save_base, save_base in Hsave.
  cbn [option_map pre_save_hook post_save_hook bind] in Hsave.
  apply bind_Ok_inv in Hsave. destruct Hsave as (db0 & Hstore & Hpost).
  unfold Bill_store in Hstore.
  apply bind_Ok_inv in Hstore. destruct Hstore as (c & _ & Hstore).
  apply bind_Ok_inv in Hstore. destruct Hstore as (ce & _ & Hstore).
  injection Hstore as <-.
  exact (proj2 (Bill_post_save_rows (set_bills db _) _ b Hpk Hwf Hpost)).
Qed.

(** X5: when [bill.save()] returns, the Cost table holds, row for row,
    the key, name, bill, percentage, service pool and kind it held, and
    every row that is not an EndUserCost or ITPlatformCost row of the
    bill, plain Cost rows of the bill included, is stored as it was. *)
Theorem Bill_save_rewrites_derived_fields_only (db db' : DB) (b : Bill) :
  primary_key (costs db) ->
  percentages_stored db b ->
  Bill_save db b = Ok db' ->
  map attributes (costs db') = map attributes (costs db)
  /\ (forall r, In r (costs db) -> ~ dependent b r -> In r (costs db'))
  /\ (forall r, In r (costs db') -> ~ dependent b r -> In r (costs db)).
Proof.
  intros Hpk Hwf Hsave. pose proof (Bill_save_rows db db' b Hpk Hwf Hsave) as F.
  split; [|split].
  - clear -F. induction F as [|r r' rows rows' [Ha _] _ IH]; [reflexivity|].
    simpl. now rewrite Ha, IH.
  - intros r Hr Hnot. destruct (Forall2_In_l _ _ _ _ F Hr) as (r' & Hr' & [_ Hn]).
    now rewrite <- (Hn Hnot).
  - intros r' Hr' Hnot. destruct (Forall2_In_r _ _ _ _ F Hr') as (r & Hr & [Ha Hn]).
    rewrite (Hn (fun Hd => Hnot (attributes_dependent b r' r (eq_sym Ha) Hd))).
    exact Hr.
Qed.

Lemma primary_key_example : primary_key (costs stale_plain_db).
Proof.
  intros r1 r2 H1 H2 Hk. simpl in H1, H2.
  destruct H1 as [<-|[<-|[<-|[]]]]; destruct H2 as [<-|[<-|[<-|[]]]];
    first [reflexivity | discriminate Hk].
Qed.

Lemma percentages_stored_stale_plain (b : Bill) : percentages_stored stale_plain_db b.
Proof.
  intros r Hr _. simpl in Hr. destruct Hr as [<-|[<-|[<-|[]]]]; reflexivity.
Qed.

Lemma Bill_save_rewrites_derived_fields_only_witness :
  exists db',
    Bill_save stale_plain_db repriced_bill = Ok db'
    /\ map cost_cost (costs db')
       = [ mkDecimal 80000 (-2); mkDecimal 120000 (-2); mkDecimal 10000 (-2) ]
    /\ In plain_line (costs db').
Proof.
  destruct (Bill_save stale_plain_db repriced_bill) as [db'|e] eqn:Hsave;
    [|vm_compute in Hsave; discriminate Hsave].
  exists db'. split; [reflexivity|]. split.
  - vm_compute in Hsave. injection Hsave as <-. vm_compute. reflexivity.
  - apply (proj1 (proj2 (Bill_save_rewrites_derived_fields_only
                           stale_plain_db db' repriced_bill primary_key_example
                           (percentages_stored_stale_plain repriced_bill) Hsave))).
    + right. right. now left.
    + intros [_ Hkind]. now apply Hkind.
Defined.

Lemma existsb_map {A B} (f : B -> bool) (g : A -> B) (l : list A) :
  existsb f (map g l) = existsb (fun x => f (g x)) l.
Proof. induction l as [|x l IH]; simpl; [reflexivity | now rewrite IH]. Qed.

(** The allocation of a bill and the allocation filter read the
    percentages of the Cost rows and nothing else of the store. *)
Lemma allocation_ext (db db' : DB) :
  (forall b, map percentage (cost_items db' b) = map percentage (cost_items db b)) ->
  forall b value qs,
    Bill_allocated db' b = Bill_allocated db b
    /\ queryset db' value qs = queryset db value qs.
Proof.
  intros Hext b value qs. split.
  - unfold Bill_allocated. now rewrite Hext.
  - assert (Hex : forall b',
              existsb (fun c => gtb (percentage c) (of_int 0)) (cost_items db' b')
              = existsb (fun c => gtb (percentage c) (of_int 0)) (cost_items db b')).
    { intros b'.
      rewrite <- (existsb_map (fun p => gtb p (of_int 0)) percentage (cost_items db' b')).
      rewrite <- (existsb_map (fun p => gtb p (of_int 0)) percentage (cost_items db b')).
      now rewrite Hext. }
    assert (Hhav : forall p b', having db' p b' = having db p b').
    { intros p b'. unfold having, cost_items__percentage__sum. now rewrite Hext. }
    unfold queryset.
    destruct (String.eqb value "0");
      [f_equal; apply filter_ext; intros b'; now rewrite Hex|].
    destruct (String.eqb value "lt_100"); [f_equal; apply filter_ext; intros b'; apply Hhav|].
    destruct (String.eqb value "100"); [f_equal; apply filter_ext; intros b'; apply Hhav|].
    destruct (String.eqb value "gt_100"); [f_equal; apply filter_ext; intros b'; apply Hhav|].
    reflexivity.
Qed.

Lemma derived_fields_only_percentages (P : Cost -> Prop) (rows rows' : list Cost) (k : Z) :
  derived_fields_only P rows rows' ->
  map percentage (filter (fun c => cost_bill c =? k) rows')
  = map percentage (filter (fun c => cost_bill c =? k) rows).
Proof.
  induction 1 as [|r r' rows rows' [Ha _] _ IH]; [reflexivity|].
  unfold attributes in Ha. injection Ha as _ _ Hb Hp _ _.
  simpl. rewrite Hb. destruct (cost_bill r =? k); simpl; now rewrite ?Hp, IH.
Qed.

(** X6: [bill.save()] changes the allocation of no bill: [allocated()]
    returns for every bill what it returned before, and the allocation
    filter returns under every lookup the bills it returned before. *)
Theorem Bill_save_keeps_allocations (db db' : DB) (b : Bill) :
  primary_key (costs db) ->
  percentages_stored db b ->
  Bill_save db b = Ok db' ->
  forall b' value qs,
    Bill_allocated db' b' = Bill_allocated db b'
    /\ queryset db' value qs = queryset db value qs.
Proof.
  intros Hpk Hwf Hsave. apply allocation_ext. intros b'.
  apply (derived_fields_only_percentages (dependent b)).
  exact (Bill_save_rows db db' b Hpk Hwf Hsave).
Qed.

Lemma Bill_save_keeps_allocations_witness :
  exists db',
    Bill_save stale_plain_db repriced_bill = Ok db'
    /\ Bill_allocated db' repriced_bill = PyDecimal (mkDecimal 11000 (-2))
    /\ queryset db' "gt_100" [ repriced_bill ] = Some [ repriced_bill ].
Proof.
  destruct (Bill_save stale_plain_db repriced_bill) as [db'|e] eqn:Hsave;
    [|vm_compute in Hsave; discriminate Hsave].
  exists db'. split; [reflexivity|].
  destruct (Bill_save_keeps_allocations stale_plain_db db' repriced_bill
              primary_key_example (percentages_stored_stale_plain repriced_bill)
              Hsave repriced_bill "gt_100"%string [ repriced_bill ]) as [-> ->].
  split; vm_compute; reflexivity.
Defined.

(** ** Saves of a Cost row *)

(** X7: the [cost] and [cost_estimate] that an instance carries never
    reach the store: [cost.save()] does the same, returning or raising,
    whatever they are, and whatever bill object the instance holds. *)
Theorem Cost_save_ignores_derived_fields (cached : option Bill) (db : DB) (c : Cost)
    (v ve : Decimal) :
  Cost_save_cached cached db (set_cost_estimate (set_cost c v) ve)
  = Cost_save_cached cached db c.
Proof.
  unfold Cost_save_cached, save_base.
  cbn [option_map pre_save_hook post_save_hook].
  unfold Cost_pre_save_signal.
  change (Cost_bill db cached (set_cost_estimate (set_cost c v) ve))
    with (Cost_bill db cached c).
  destruct (Cost_bill db cached c) as [b|e]; [|reflexivity].
  cbn [bind]. rewrite !Cost_pre_save_ignores_active.
  cbn [percentage set_cost set_cost_estimate].
  destruct (div (mul (bill_cost b) (percentage c)) (of_int 100)) as [x|e];
    [|reflexivity].
  cbn [bind].
  destruct (div (mul (bill_cost_estimate b) (percentage c)) (of_int 100)) as [xe|e];
    reflexivity.
Qed.

Lemma write_idem {A} (pk : A -> Z) (rows : list A) (x : A) :
  write pk (write pk rows x) x = write pk rows x.
Proof.
  apply write_same.
  - apply In_write_same.
  - intros r Hr Hk. apply In_write in Hr.
    destruct Hr as [->|[_ Hne]]; [reflexivity | contradiction].
Qed.

(** An instance whose bill object is the stored bill is saved as an
    instance without a bill object is. *)
Lemma Cost_save_cached_stored (cached : option Bill) (db : DB) (c : Cost) :
  (forall b, cached = Some b -> get bill_pk (bills db) (cost_bill c) = Ok b) ->
  Cost_save_cached cached db c = Cost_save db c.
Proof.
  intros H. destruct cached as [b|]; [|reflexivity].
  unfold Cost_save, Cost_save_cached, save_base.
  cbn [option_map pre_save_hook post_save_hook].
  unfold Cost_pre_save_signal, Cost_bill. now rewrite (H b eq_refl).
Qed.

(** X8: take an instance whose percentage is at two places and whose
    bill object, if it holds one, is the bill as it is stored.  After
    [cost.save()] returns, the row can be read back under the
    instance's key, and saving the row read back leaves the store as it
    is. *)
Theorem Cost_save_read_back_fixed (cached : option Bill) (db db' : DB) (c : Cost) :
  (forall b, cached = Some b -> get bill_pk (bills db) (cost_bill c) = Ok b) ->
  two_places (percentage c) ->
  Cost_save_cached cached db c = Ok db' ->
  exists x, get cost_pk (costs db') (cost_pk c) = Ok x
            /\ Cost_save db' x = Ok db'.
Proof.
  intros Hcached Hp Hsave. rewrite (Cost_save_cached_stored _ _ _ Hcached) in Hsave.
  destruct (Cost_save_inv _ _ _ Hsave) as (b & _ & _ & _ & _ & Hb & _).
  destruct (Cost_save_settles _ _ _ _ Hb Hp Hsave) as (x & -> & Hxk & Hx).
  exists x. cbn [costs set_costs]. split.
  - rewrite <- Hxk. apply get_write.
  - apply (Cost_save_settled _ b x).
    + cbn [bills set_costs]. destruct Hx as [Hk _]. rewrite Hk.
      destruct (get_Ok_pk _ _ _ _ Hb) as [Hbk _]. now rewrite Hbk.
    + exact Hx.
    + apply In_write_same.
    + cbn [costs set_costs]. intros r Hr Hk. apply In_write in Hr.
      destruct Hr as [->|[_ Hne]]; [reflexivity | contradiction].
Qed.

Lemma Cost_save_read_back_fixed_witness :
  exists db' x,
    Cost_save_cached (Some (example_bill true)) example_db extra_line = Ok db'
    /\ get cost_pk (costs db') 3 = Ok x
    /\ cost_cost x = mkDecimal 20000 (-2)
    /\ Cost_save db' x = Ok db'.
Proof.
  destruct (Cost_save_cached (Some (example_bill true)) example_db extra_line)
    as [db'|e] eqn:Hsave; [|vm_compute in Hsave; discriminate Hsave].
  destruct (Cost_save_read_back_fixed (Some (example_bill true)) example_db db'
              extra_line) as (x & Hget & Hfix).
  - intros b [= <-]. reflexivity.
  - reflexivity.
  - exact Hsave.
  - exists db', x. split; [reflexivity|]. split; [exact Hget|]. split; [|exact Hfix].
    vm_compute in Hsave. injection Hsave as <-.
    vm_compute in Hget. injection Hget as <-. reflexivity.
Defined.

(** ** Saving twice *)

Lemma set_bills_same (db : DB) : set_bills db (bills db) = db.
Proof. destruct db; reflexivity. Qed.

(** A cascade that returned returns the store it is given when run on
    the store it produced. *)
Lemma Bill_post_save_fixed (db db1 : DB) (self b : Bill) :
  bill_pk self = bill_pk b ->
  get bill_pk (bills db) (bill_pk b) = Ok b ->
  percentages_stored db b ->
  Bill_post_save db self = Ok db1 ->
  Bill_post_save db1 self = Ok db1.
Proof.
  intros Hself Hb Hwf Hpost.
  destruct (Bill_post_save_settles _ _ _ _ Hself Hb Hwf Hpost) as [Hbills Hrows].
  assert (Hfix : forall c, In c (costs db1) ->
                   cost_bill c = bill_pk b -> cost_kind c <> PlainCost ->
                   Cost_save db1 c = Ok db1).
  { intros c Hc Hk Hkind.
    destruct (Hrows c Hc (conj Hk Hkind)) as [Hs Hu].
    apply (Cost_save_settled db1 b c); try assumption.
    now rewrite Hbills, Hk. }
  unfold Bill_post_save.
  rewrite foldM_fixed.
  - cbn [bind]. apply foldM_fixed.
    intros c Hc. apply filter_In in Hc. destruct Hc as [Hc Hf].
    apply andb_prop in Hf. destruct Hf as [Hk Hkind]. apply Z.eqb_eq in Hk.
    apply Hfix; [exact Hc | congruence |].
    unfold is_ITPlatformCost in Hkind. intros E. now rewrite E in Hkind.
  - intros c Hc. apply filter_In in Hc. destruct Hc as [Hc Hf].
    apply andb_prop in Hf. destruct Hf as [Hk Hkind]. apply Z.eqb_eq in Hk.
    apply Hfix; [exact Hc | congruence |].
    unfold is_EndUserCost in Hkind. intros E. now rewrite E in Hkind.
Qed.

(** X9: [bill.save()] called a second time on the same instance returns
    and leaves the store as the first call left it. *)
Theorem Bill_save_twice (db db' : DB) (b : Bill) :
  percentages_stored db b ->
  Bill_save db b = Ok db' ->
  Bill_save db' b = Ok db'.
Proof.
  intros Hwf Hsave.
  unfold Bill_save, Bill_save_base, save_base in *.
  cbn [option_map pre_save_hook post_save_hook bind] in *.
  apply bind_Ok_inv in Hsave. destruct Hsave as (db0 & Hstore & Hpost).
  unfold Bill_store in *.
  apply bind_Ok_inv in Hstore. destruct Hstore as (c & Hc & Hstore).
  apply bind_Ok_inv in Hstore. destruct Hstore as (ce & Hce & Hstore).
  injection Hstore as <-.
  rewrite Hc, Hce. cbn [bind].
  set (b0 := set_bill_costs b c ce) in *.
  set (db0 := set_bills db (write bill_pk (bills db) b0)) in *.
  assert (Hget : get bill_pk (bills db0) (bill_pk b0) = Ok b0) by apply get_write.
  destruct (Bill_post_save_settles db0 db' b0 b eq_refl Hget Hwf Hpost) as [Hbills _].
  assert (E : set_bills db' (write bill_pk (bills db') b0) = db').
  { rewrite Hbills. unfold db0 at 1. cbn [bills set_bills].
    rewrite write_idem. fold db0. change (write bill_pk (bills db) b0) with (bills db0).
    rewrite <- Hbills. apply set_bills_same. }
  rewrite E.
  exact (Bill_post_save_fixed db0 db' b b0 eq_refl Hget Hwf Hpost).
Qed.

Lemma Bill_save_twice_witness :
  exists db',
    Bill_save example_db repriced_bill = Ok db'
    /\ map cost_cost (costs db') = [ mkDecimal 80000 (-2); mkDecimal 120000 (-2) ]
    /\ Bill_save db' repriced_bill = Ok db'.
Proof.
  destruct (Bill_save example_db repriced_bill) as [db'|e] eqn:Hsave;
    [|vm_compute in Hsave; discriminate Hsave].
  exists db'. split; [reflexivity|]. split.
  - vm_compute in Hsave. injection Hsave as <-. vm_compute. reflexivity.
  - exact (Bill_save_twice example_db db' repriced_bill
             (percentages_stored_example repriced_bill) Hsave).
Defined.

(** ** Saves of a SystemDependency *)

Lemma set_systemdependencies_same (db : DB) :
  set_systemdependencies db (systemdependencies db) = db.
Proof. destruct db; reflexivity. Qed.

Lemma set_platforms_same (db : DB) : set_platforms db (platforms db) = db.
Proof. destruct db; reflexivity. Qed.

(** What [dependency.save()] does when it returns. *)
Lemma SystemDependency_save_inv (db db' : DB) (sd : SystemDependency) :
  SystemDependency_save db sd = Ok db' ->
  exists pl,
    get platform_pk (platforms db) (sd_platform sd) = Ok pl
    /\ db' = set_platforms
               (set_systemdependencies db (write sd_pk (systemdependencies db) sd))
               (write platform_pk (platforms db)
                  (set_system_count pl
                     (Z.of_nat (List.length
                        (filter (fun d => sd_platform d =? sd_platform sd)
                           (write sd_pk (systemdependencies db) sd)))))).
Proof.
  unfold SystemDependency_save, SystemDependency_save_base, save_base.
  cbn [option_map pre_save_hook post_save_hook bind SystemDependency_store].
  unfold SystemDependency_post_save.
  intros Hsave. apply bind_Ok_inv in Hsave. destruct Hsave as (pl & Hget & Hsave).
  cbn [platforms set_systemdependencies] in Hget.
  exists pl. split; [exact Hget|].
  apply get_Ok_pk in Hget. destruct Hget as [Hpk _].
  unfold Platform_save, Platform_save_base, save_base in Hsave.
  cbn [option_map pre_save_hook post_save_hook bind Platform_store] in Hsave.
  injection Hsave as <-.
  unfold systemdependency_set_count.
  cbn [platforms systemdependencies set_systemdependencies]. now rewrite Hpk.
Qed.

(** X10: [dependency.save()] writes no platform but the one the
    dependency references: the rows of every other platform, the one a
    re-pointed dependency referenced before included, are stored as they
    were, counter and all. *)
Theorem SystemDependency_save_other_platforms (db db' : DB) (sd : SystemDependency) :
  SystemDependency_save db sd = Ok db' ->
  forall p, platform_pk p <> sd_platform sd ->
    (In p (platforms db') <-> In p (platforms db)).
Proof.
  intros Hsave p Hne.
  destruct (SystemDependency_save_inv _ _ _ Hsave) as (pl & Hget & ->).
  apply get_Ok_pk in Hget. destruct Hget as [Hpk _].
  cbn [platforms set_platforms]. split.
  - intros Hin. apply In_write in Hin. destruct Hin as [->|[Hin _]]; [|exact Hin].
    now contradiction Hne.
  - intros Hin. apply In_write_other; [exact Hin|].
    cbn [platform_pk set_system_count]. now rewrite Hpk.
Qed.

Lemma SystemDependency_save_other_platforms_witness :
  exists db',
    SystemDependency_save platforms_db (mkSystemDependency 1 1 2) = Ok db'
    /\ dependencies_on db' 1 = []
    /\ In (mkPlatform 1 "Cloud" 1) (platforms db').
Proof.
  destruct (SystemDependency_save platforms_db (mkSystemDependency 1 1 2))
    as [db'|e] eqn:Hsave; [|vm_compute in Hsave; discriminate Hsave].
  exists db'. split; [reflexivity|]. split.
  - vm_compute in Hsave. injection Hsave as <-. reflexivity.
  - apply (proj2 (SystemDependency_save_other_platforms platforms_db db'
                    (mkSystemDependency 1 1 2) Hsave (mkPlatform 1 "Cloud" 1)
                    ltac:(discriminate))).
    now left.
Defined.

(** X11: [dependency.save()] called a second time on the same instance
    returns and leaves the store as the first call left it. *)
Theorem SystemDependency_save_twice (db db' : DB) (sd : SystemDependency) :
  SystemDependency_save db sd = Ok db' ->
  SystemDependency_save db' sd = Ok db'.
Proof.
  intros Hsave.
  destruct (SystemDependency_save_inv _ _ _ Hsave) as (pl & Hget & ->).
  apply get_Ok_pk in Hget. destruct Hget as [Hpk _].
  set (n := Z.of_nat (List.length _)).
  set (pl' := set_system_count pl n).
  set (db1 := set_systemdependencies db (write sd_pk (systemdependencies db) sd)).
  set (db2 := set_platforms db1 (write platform_pk (platforms db) pl')).
  unfold SystemDependency_save, SystemDependency_save_base, save_base.
  cbn [option_map pre_save_hook post_save_hook bind SystemDependency_store].
  assert (E1 : set_systemdependencies db2 (write sd_pk (systemdependencies db2) sd) = db2).
  { change (systemdependencies db2) with (write sd_pk (systemdependencies db) sd) at 1.
    rewrite write_idem.
    change (write sd_pk (systemdependencies db) sd) with (systemdependencies db2).
    apply set_systemdependencies_same. }
  rewrite E1. unfold SystemDependency_post_save.
  assert (Hget' : get platform_pk (platforms db2) (sd_platform sd) = Ok pl').
  { rewrite <- Hpk. change (platform_pk pl) with (platform_pk pl').
    apply get_write. }
  rewrite Hget'. cbn [bind].
  assert (Hn : systemdependency_set_count db2 pl' = n).
  { unfold systemdependency_set_count.
    change (platform_pk pl') with (platform_pk pl). now rewrite Hpk. }
  rewrite Hn. change (set_system_count pl' n) with pl'.
  unfold Platform_save, Platform_save_base, save_base.
  cbn [option_map pre_save_hook post_save_hook bind Platform_store].
  f_equal.
  change (platforms db2) with (write platform_pk (platforms db) pl') at 1.
  rewrite write_idem.
  change (write platform_pk (platforms db) pl') with (platforms db2).
  apply set_platforms_same.
Qed.

Lemma SystemDependency_save_twice_witness :
  exists db',
    SystemDependency_save platforms_db (mkSystemDependency 2 1 2) = Ok db'
    /\ map system_count (platforms db') = [ 1; 1 ]
    /\ SystemDependency_save db' (mkSystemDependency 2 1 2) = Ok db'.
Proof.
  destruct (SystemDependency_save platforms_db (mkSystemDependency 2 1 2))
    as [db'|e] eqn:Hsave; [|vm_compute in Hsave; discriminate Hsave].
  exists db'. split; [reflexivity|]. split.
  - vm_compute in Hsave. injection Hsave as <-. reflexivity.
  - exact (SystemDependency_save_twice platforms_db db' _ Hsave).
Defined.

(** ** Raw saves *)

(** X12: a raw save (the loading of a fixture) runs no post-save hook.
    A Bill is written and no Cost row is touched, so that the rows of a
    bill loaded with other amounts keep the shares they had; a
    SystemDependency is written and no platform is touched. *)
Theorem raw_save_runs_no_hook (db db' : DB) :
  (forall b, Bill_save_base true db b = Ok db' ->
     costs db' = costs db
     /\ exists x, get bill_pk (bills db') (bill_pk b) = Ok x
                  /\ db_prep 12 (bill_cost b) = Ok (bill_cost x)
                  /\ db_prep 12 (bill_cost_estimate b) = Ok (bill_cost_estimate x))
  /\ (forall sd, SystemDependency_save_base true db sd = Ok db' ->
        platforms db' = platforms db
        /\ get sd_pk (systemdependencies db') (sd_pk sd) = Ok sd).
Proof.
  split.
  - intros b H. unfold Bill_save_base, save_base in H.
    cbn [option_map pre_save_hook post_save_hook bind] in H.
    apply bind_Ok_inv in H. destruct H as (db1 & H & [= <-]).
    unfold Bill_store in H.
    apply bind_Ok_inv in H. destruct H as (v & Hv & H).
    apply bind_Ok_inv in H. destruct H as (ve & Hve & [= <-]).
    split; [reflexivity|].
    eexists. split; [|split].
    + cbn [bills set_bills].
      change (bill_pk b) with (bill_pk (set_bill_costs b v ve)).
      apply get_write.
    + exact Hv.
    + exact Hve.
  - intros sd H. unfold SystemDependency_save_base, save_base in H.
    cbn [option_map pre_save_hook post_save_hook bind SystemDependency_store] in H.
    injection H as <-. split; [reflexivity|].
    cbn [systemdependencies set_systemdependencies]. apply get_write.
Qed.

Lemma raw_save_runs_no_hook_witness :
  exists db',
    Bill_save_base true example_db repriced_bill = Ok db'
    /\ map cost_cost (costs db') = [ mkDecimal 40000 (-2); mkDecimal 60000 (-2) ]
    /\ exists x, get bill_pk (bills db') 1 = Ok x
                 /\ db_prep 12 (mkDecimal 200000 (-2)) = Ok (bill_cost x).
Proof.
  destruct (Bill_save_base true example_db repriced_bill) as [db'|e] eqn:Hsave;
    [|vm_compute in Hsave; discriminate Hsave].
  destruct (proj1 (raw_save_runs_no_hook example_db db') repriced_bill Hsave)
    as (Hc & x & Hget & Hv & _).
  exists db'. split; [reflexivity|]. split; [now rewrite Hc|].
  exists x. split; [exact Hget | exact Hv].
Defined.

(** ** Percentages of the reference year, at zero *)

Lemma div_zero_num (a b : Decimal) :
  is_zero a = true -> is_zero b = false ->
  exists q, div a b = Ok q /\ is_zero q = true.
Proof.
  intros Ha Hb. unfold div. rewrite Hb, Ha.
  eexists. split; [reflexivity|]. rewrite fix_small; [reflexivity|].
  cbn [coef]. apply pow10_pos. unfold prec. lia.
Qed.

(** X13: an entity without cost, in a reference year that has a cost,
    has the percentage [Decimal('0.00')], a Decimal and not the int 0
    that is returned when the year has no cost; likewise for the
    estimates. *)
Theorem no_cost_percentage {M} `{CostSummary M} (db : DB) (self : M)
    (y : FinancialYear) :
  year db = Some y ->
  (forall yc c, cost db y = Ok yc -> is_zero yc = false ->
                cost db self = Ok c -> is_zero c = true ->
                cost_percentage db self = Ok (PyDecimal (mkDecimal 0 (-2))))
  /\ (forall yc c, cost_estimate db y = Ok yc -> is_zero yc = false ->
                   cost_estimate db self = Ok c -> is_zero c = true ->
                   cost_estimate_percentage db self = Ok (PyDecimal (mkDecimal 0 (-2)))).
Proof.
  intros Hy. unfold cost_percentage, cost_estimate_percentage. rewrite Hy.
  split; intros yc c Hyc Hyz Hc Hz; rewrite Hyc; cbn [bind];
    rewrite eqb_zero, Hyz, Hc; cbn [bind];
    destruct (div_zero_num c yc Hz Hyz) as (q & -> & Hq); cbn [bind];
    rewrite (round_zero _ 2 (mul_zero_l q _ Hq)); reflexivity.
Qed.

Lemma no_cost_percentage_witness :
  cost_percentage example_db (mkContract 2 "Other" "N/A" "N/A" "Annual" 739068 None true)
  = Ok (PyDecimal (mkDecimal 0 (-2))).
Proof.
  apply (proj1 (no_cost_percentage example_db
                  (mkContract 2 "Other" "N/A" "N/A" "Annual" 739068 None true)
                  (mkFinancialYear 1 739068 739432) eq_refl)
           (mkDecimal 100000 (-2)) (of_int 0)); vm_compute; reflexivity.
Defined.

(** ** The values of the allocation filter *)

(** X14: the allocation filter returns a queryset for the four values
    its lookups offer and for no other value, and a queryset it returns
    holds only bills of the queryset it was given. *)
Theorem queryset_values (db : DB) (value : string) (qs : list Bill) :
  (queryset db value qs = None <-> ~ In value (map fst lookups))
  /\ forall l, queryset db value qs = Some l -> forall b, In b l -> In b qs.
Proof.
  unfold queryset, lookups. cbn [map fst].
  destruct (String.eqb_spec value "0") as [->|N0].
  { split.
    - split; [discriminate | intros H; exfalso; apply H; now left].
    - intros l [= <-] b Hb. now apply filter_In in Hb. }
  destruct (String.eqb_spec value "lt_100") as [->|N1].
  { split.
    - split; [discriminate | intros H; exfalso; apply H; right; now left].
    - intros l [= <-] b Hb. now apply filter_In in Hb. }
  destruct (String.eqb_spec value "100") as [->|N2].
  { split.
    - split; [discriminate | intros H; exfalso; apply H; right; right; now left].
    - intros l [= <-] b Hb. now apply filter_In in Hb. }
  destruct (String.eqb_spec value "gt_100") as [->|N3].
  { split.
    - split; [discriminate | intros H; exfalso; apply H; right; right; right; now left].
    - intros l [= <-] b Hb. now apply filter_In in Hb. }
  split.
  - split; [|reflexivity]. intros _ [E|[E|[E|[E|[]]]]]; symmetry in E; contradiction.
  - discriminate.
Qed.

Lemma queryset_values_witness :
  queryset example_db "all" (bills example_db) = None
  /\ exists l, queryset example_db "100" (bills example_db) = Some l
               /\ forall b, In b l -> In b (bills example_db).
Proof.
  split.
  - apply (proj1 (queryset_values example_db "all" (bills example_db))).
    intros [E|[E|[E|[E|[]]]]]; discriminate E.
  - destruct (queryset example_db "100" (bills example_db)) as [l|] eqn:Hq;
      [|vm_compute in Hq; discriminate Hq].
    exists l. split; [reflexivity|].
    exact (proj2 (queryset_values example_db "100" (bills example_db)) l Hq).
Defined.

(** ** Contract.get_cost_queryset *)

Lemma filter_andb {A} (f g : A -> bool) (l : list A) :
  filter (fun x => f x && g x) l = filter f (filter g l).
Proof.
  induction l as [|x l IH]; [reflexivity|]. simpl.
  destruct (g x); simpl; rewrite ?andb_true_r, ?andb_false_r;
    destruct (f x); simpl; now rewrite ?IH.
Qed.

(** X15: the cost and the estimate of a contract read the active bills
    and nothing else: two stores with the same active bills give every
    contract the same cost and the same estimate, whatever inactive
    bills either holds. *)
Theorem Contract_cost_reads_active_bills (db1 db2 : DB) (c : Contract) :
  filter bill_active (bills db1) = filter bill_active (bills db2) ->
  cost db1 c = cost db2 c /\ cost_estimate db1 c = cost_estimate db2 c.
Proof.
  intros H.
  assert (E : Contract_get_cost_queryset db1 c = Contract_get_cost_queryset db2 c).
  { unfold Contract_get_cost_queryset. now rewrite !filter_andb, H. }
  cbn [cost cost_estimate Contract_CostSummary inherited].
  unfold inherited_cost, inherited_cost_estimate. now rewrite E.
Qed.

Lemma Contract_cost_reads_active_bills_witness :
  cost (set_bills example_db [ example_bill true; mkBill 2 1 "Support" "N/A" "" "1" 1 None
                                 (mkDecimal 50000 (-2)) (mkDecimal 50000 (-2)) false ])
       (mkContract 1 "Acme" "N/A" "N/A" "Annual" 739068 None true)
  = Ok (mkDecimal 100000 (-2)).
Proof.
  rewrite (proj1 (Contract_cost_reads_active_bills
                    (set_bills example_db
                       [ example_bill true;
                         mkBill 2 1 "Support" "N/A" "" "1" 1 None
                           (mkDecimal 50000 (-2)) (mkDecimal 50000 (-2)) false ])
                    example_db
                    (mkContract 1 "Acme" "N/A" "N/A" "Annual" 739068 None true)
                    eq_refl)).
  vm_compute. reflexivity.
Defined.

(** ** The stored share *)

Lemma round_half_even_scale (n j k : Z) :
  0 <= j -> 0 <= k ->
  round_half_even (n * 10 ^ j) (k + j) = round_half_even n k.
Proof.
  intros Hj Hk. unfold round_half_even.
  assert (HP : 0 < 10 ^ j) by now apply pow10_pos.
  assert (Hp : 0 < 10 ^ k) by now apply pow10_pos.
  rewrite Z.pow_add_r, Z.abs_mul, (Z.abs_eq (10 ^ j)) by lia.
  set (P := 10 ^ j) in *. set (p := 10 ^ k) in *. set (m := Z.abs n).
  rewrite Z.div_mul_cancel_r by lia.
  assert (Hr : (m * P) mod (p * P) = (m mod p) * P).
  { pose proof (Z.div_mod m p ltac:(lia)) as Hdm.
    pose proof (Z.mod_pos_bound m p Hp) as Hb.
    symmetry. apply (Z.mod_unique_pos _ _ (m / p)); nia. }
  rewrite Hr. set (r := m mod p).
  assert (Hs : Z.sgn (n * P) = Z.sgn n).
  { rewrite Z.sgn_mul, (Z.sgn_pos P) by lia. lia. }
  rewrite Hs.
  replace (2 * (r * P) >? p * P) with (2 * r >? p).
  - replace (2 * (r * P) =? p * P) with (2 * r =? p); [reflexivity|].
    destruct (Z.eqb_spec (2 * r) p), (Z.eqb_spec (2 * (r * P)) (p * P));
      try reflexivity; exfalso; nia.
  - rewrite !Z.gtb_ltb.
    destruct (Z.ltb_spec p (2 * r)), (Z.ltb_spec (p * P) (2 * (r * P)));
      try reflexivity; exfalso; nia.
Qed.

Lemma round_half_even_0 (n : Z) : round_half_even n 0 = n.
Proof.
  unfold round_half_even. change (10 ^ 0) with 1.
  rewrite Z.div_1_r, Z.mod_1_r. cbn [Z.mul Z.gtb Z.compare Z.eqb orb andb].
  rewrite Z.mul_comm. apply Z.abs_sgn.
Qed.

(** A value in millionths, brought to two places. *)
Lemma rescale_millionths (v : Decimal) (n : Z) :
  millionths v n -> rescale v (-2) = mkDecimal (round_half_even n 4) (-2).
Proof.
  intros [He Hn]. unfold rescale. destruct (Z.leb_spec (-2) (exp v)) as [Hle|Hgt].
  - f_equal. rewrite <- Hn.
    replace (exp v + 6) with ((exp v - -2) + 4) by lia.
    rewrite Z.pow_add_r, Z.mul_assoc by lia.
    rewrite (round_half_even_scale _ 4 0) by lia.
    now rewrite round_half_even_0.
  - f_equal. rewrite <- Hn.
    replace 4 with ((-2 - exp v) + (exp v + 6)) at 1 by lia.
    now rewrite round_half_even_scale by lia.
Qed.

Lemma round_half_even_bound (n k B : Z) :
  0 <= k -> Z.abs n <= B * 10 ^ k -> Z.abs (round_half_even n k) <= B.
Proof.
  intros Hk Hn. unfold round_half_even.
  assert (Hp : 0 < 10 ^ k) by now apply pow10_pos.
  set (p := 10 ^ k) in *. set (m := Z.abs n) in *.
  pose proof (Z.div_mod m p ltac:(lia)) as Hdm.
  pose proof (Z.mod_pos_bound m p Hp) as Hb.
  assert (Hq : 0 <= m / p) by (apply Z.div_pos; unfold m; lia).
  set (q := m / p) in *. set (r := m mod p) in *.
  assert (Hq' : 0 <= (if (2 * r >? p) || ((2 * r =? p) && Z.odd q) then q + 1 else q) <= B).
  { destruct ((2 * r >? p) || ((2 * r =? p) && Z.odd q)) eqn:E.
    - assert (0 < r).
      { apply orb_prop in E. destruct E as [E|E].
        - rewrite Z.gtb_ltb in E. apply Z.ltb_lt in E. lia.
        - apply andb_prop in E. destruct E as [E _]. apply Z.eqb_eq in E. lia. }
      nia.
    - nia. }
  destruct (Z.sgn_spec n) as [[_ ->]|[[_ ->]|[_ ->]]]; lia.
Qed.

(** The write of a share to a column of twelve digits. *)
Lemma db_prep_millionths (v : Decimal) (n : Z) :
  millionths v n -> Z.abs n <= (10 ^ 12 - 1) * 10 ^ 4 ->
  db_prep 12 v = Ok (mkDecimal (round_half_even n 4) (-2)).
Proof.
  intros Hm Hn. pose proof Hm as [He Hv].
  unfold db_prep, quantize. destruct (is_zero v) eqn:Hz.
  - unfold is_zero in Hz. apply Z.eqb_eq in Hz. rewrite Hz in Hv. simpl in Hv.
    now rewrite <- Hv.
  - unfold is_zero in Hz. apply Z.eqb_neq in Hz.
    destruct (ndigits_bounds (coef v) Hz) as [Hlo _].
    assert (Hnd : 1 <= ndigits (coef v)) by (unfold ndigits; apply ndigits_aux_pos).
    assert (Hadj : exp v + ndigits (coef v) <= 10).
    { destruct (Z_le_gt_dec (exp v + ndigits (coef v)) 10) as [H|H]; [exact H|].
      exfalso.
      assert (H16 : 10 ^ 16 <= 10 ^ (ndigits (coef v) - 1 + (exp v + 6)))
        by (apply Z.pow_le_mono_r; lia).
      rewrite Z.pow_add_r in H16 by lia.
      assert (Hpe : 0 < 10 ^ (exp v + 6)) by (apply pow10_pos; lia).
      assert (Habs : Z.abs n = Z.abs (coef v) * 10 ^ (exp v + 6))
        by (rewrite <- Hv, Z.abs_mul, (Z.abs_eq (10 ^ (exp v + 6))); lia).
      assert ((10 ^ 12 - 1) * 10 ^ 4 < 10 ^ 16) by reflexivity.
      nia. }
    unfold adjusted. rewrite Z.gtb_ltb.
    destruct (Z.ltb_spec 12 (exp v + ndigits (coef v) - 1 - -2 + 1)) as [H|_]; [lia|].
    rewrite (rescale_millionths v n Hm). cbn [coef].
    pose proof (round_half_even_bound n 4 (10 ^ 12 - 1) ltac:(lia) Hn) as Hb.
    assert (Hle : ndigits (round_half_even n 4) <= 12) by (apply ndigits_le; lia).
    rewrite Z.gtb_ltb. destruct (Z.ltb_spec 12 (ndigits (round_half_even n 4))); [lia|].
    reflexivity.
Qed.

(** A value that a column holds is written to it as it is. *)
Lemma db_prep_fits (p : Z) (c : Decimal) :
  1 <= p -> fits p c -> db_prep p c = Ok c.
Proof.
  intros Hp1 [Hp Hc]. red in Hp. unfold db_prep. rewrite <- Hp.
  unfold quantize. destruct (is_zero c) eqn:Hz.
  - unfold is_zero in Hz. apply Z.eqb_eq in Hz. destruct c; simpl in *. now subst.
  - pose proof (ndigits_le (coef c) p Hp1 Hc) as Hle.
    assert (Hgt : (ndigits (coef c) >? p) = false)
      by (rewrite Z.gtb_ltb; apply Z.ltb_ge; exact Hle).
    unfold adjusted.
    replace (exp c + ndigits (coef c) - 1 - exp c + 1) with (ndigits (coef c)) by lia.
    now rewrite Hgt, rescale_same, Hgt.
Qed.

Lemma validated_fits (p : Decimal) : validated p -> fits 5 p.
Proof. intros [Hp Hc]. split; [exact Hp|]. change (10 ^ 5) with 100000. lia. Qed.

Lemma share_stored (a p : Decimal) :
  fits 12 a -> validated p ->
  exists v, div (mul a p) (of_int 100) = Ok v
            /\ db_prep 12 v = Ok (rounded_share a p).
Proof.
  intros Ha Hp.
  destruct (share_exact a p Ha (validated_fits p Hp)) as (v & Hv & Hm).
  exists v. split; [exact Hv|]. apply (db_prep_millionths v _ Hm).
  destruct Ha as [_ Ha]. destruct Hp as [_ Hp].
  rewrite Z.abs_mul. change (10 ^ 4) with 10000. change (10 ^ 12) with 1000000000000 in *.
  assert (0 <= Z.abs (coef a)) by lia. assert (0 <= Z.abs (coef p)) by lia.
  assert (Z.abs (coef p) <= 10000) by lia. nia.
Qed.

(** What [cost.save()] writes for a bill object and a validated
    percentage. *)
Lemma Cost_save_cached_valid (cached : option Bill) (db : DB) (b : Bill) (c : Cost) :
  Cost_bill db cached c = Ok b ->
  references bill_pk (bills db) (cost_bill c) = Ok tt ->
  fits 12 (bill_cost b) -> fits 12 (bill_cost_estimate b) ->
  validated (percentage c) ->
  Cost_save_cached cached db c
  = Ok (set_costs db
          (write cost_pk (costs db)
             (set_cost_estimate
                (set_cost c (rounded_share (bill_cost b) (percentage c)))
                (rounded_share (bill_cost_estimate b) (percentage c))))).
Proof.
  intros Hb Hfk Ha Hae Hp.
  destruct (share_stored _ _ Ha Hp) as (v & Hv0 & Hv).
  destruct (share_stored _ _ Hae Hp) as (ve & Hve0 & Hve).
  rewrite (Cost_save_cached_steps cached db c b v ve _ _ _ Hb Hv0 Hve0
             (db_prep_fits 5 _ ltac:(lia) (validated_fits _ Hp)) Hv Hve Hfk).
  destruct c; reflexivity.
Qed.

Lemma Cost_save_valid (db : DB) (b : Bill) (c : Cost) :
  get bill_pk (bills db) (cost_bill c) = Ok b ->
  fits 12 (bill_cost b) -> fits 12 (bill_cost_estimate b) ->
  validated (percentage c) ->
  Cost_save db c
  = Ok (set_costs db
          (write cost_pk (costs db)
             (set_cost_estimate
                (set_cost c (rounded_share (bill_cost b) (percentage c)))
                (rounded_share (bill_cost_estimate b) (percentage c))))).
Proof.
  intros Hb. apply Cost_save_cached_valid; [exact Hb|].
  exact (get_references _ _ _ _ Hb).
Qed.



(** ** The cascade on validated data *)

Lemma save_loop_returns (b : Bill) (l : list Cost) :
  fits 12 (bill_cost b) -> fits 12 (bill_cost_estimate b) ->
  forall db,
    get bill_pk (bills db) (bill_pk b) = Ok b ->
    (forall c, In c l -> cost_bill c = bill_pk b /\ validated (percentage c)) ->
    (forall r, In r (costs db) -> cost_bill r = bill_pk b -> validated (percentage r)) ->
    exists db',
      foldM Cost_save l db = Ok db'
      /\ bills db' = bills db
      /\ forall r, In r (costs db') -> cost_bill r = bill_pk b ->
           validated (percentage r).
Proof.
  intros Ha Hae. induction l as [|c l IH]; intros db Hb Hl Hq.
  - exists db. now split.
  - destruct (Hl c (or_introl eq_refl)) as [Hk Hp].
    cbn [foldM]. rewrite (Cost_save_valid db b c) by (rewrite ?Hk; assumption).
    cbn [bind].
    set (x := set_cost_estimate _ _).
    destruct (IH (set_costs db (write cost_pk (costs db) x))) as (db' & Hf & Hbills & Hq').
    + exact Hb.
    + intros c' Hc'. apply Hl. now right.
    + cbn [costs set_costs]. intros r Hr Hrk. apply In_write in Hr.
      destruct Hr as [->|[Hr _]]; [exact Hp | now apply Hq].
    + exists db'. split; [exact Hf|]. split; [exact Hbills | exact Hq'].
Qed.

Lemma Bill_post_save_returns (db : DB) (self b : Bill) :
  bill_pk self = bill_pk b ->
  fits 12 (bill_cost b) -> fits 12 (bill_cost_estimate b) ->
  get bill_pk (bills db) (bill_pk b) = Ok b ->
  (forall r, In r (costs db) -> cost_bill r = bill_pk b -> validated (percentage r)) ->
  exists db',
    Bill_post_save db self = Ok db'
    /\ forall r, In r (costs db') -> cost_bill r = bill_pk b -> validated (percentage r).
Proof.
  intros Hself Ha Hae Hb Hq. unfold Bill_post_save.
  destruct (save_loop_returns b (EndUserCost_filter_bill db self) Ha Hae db Hb)
    as (db1 & -> & Hb1 & Hq1).
  { intros c Hc. apply filter_In in Hc. destruct Hc as [Hc Hf].
    apply andb_prop in Hf. destruct Hf as [Hk _]. apply Z.eqb_eq in Hk.
    rewrite Hself in Hk. split; [exact Hk | now apply Hq]. }
  { exact Hq. }
  cbn [bind].
  destruct (save_loop_returns b (ITPlatformCost_filter_bill db1 self) Ha Hae db1)
    as (db' & -> & _ & Hq').
  { now rewrite Hb1. }
  { intros c Hc. apply filter_In in Hc. destruct Hc as [Hc Hf].
    apply andb_prop in Hf. destruct Hf as [Hk _]. apply Z.eqb_eq in Hk.
    rewrite Hself in Hk. split; [exact Hk | now apply Hq1]. }
  { exact Hq1. }
  exists db'. now split.
Qed.

Lemma up_to_date_rounded (b : Bill) (r : Cost) :
  fits 12 (bill_cost b) -> fits 12 (bill_cost_estimate b) ->
  validated (percentage r) ->
  up_to_date b r ->
  cost_cost r = rounded_share (bill_cost b) (percentage r)
  /\ cost_cost_estimate r = rounded_share (bill_cost_estimate b) (percentage r).
Proof.
  intros Ha Hae Hp (r1 & Hpre & Hv & Hve).
  destruct (Cost_pre_save_inv _ _ _ Hpre) as (v0 & ve0 & Hv0 & Hve0 & ->).
  cbn [cost_cost cost_cost_estimate set_cost set_cost_estimate] in Hv, Hve.
  destruct (share_stored _ _ Ha Hp) as (v & Hdiv & Hprep).
  destruct (share_stored _ _ Hae Hp) as (ve & Hdive & Hprepe).
  rewrite Hv0 in Hdiv. injection Hdiv as <-.
  rewrite Hve0 in Hdive. injection Hdive as <-.
  split; congruence.
Qed.

(** What [bill.save()] does for amounts that the columns hold and
    percentages as validated. *)
Lemma Bill_save_valid (db : DB) (b : Bill) :
  fits 12 (bill_cost b) -> fits 12 (bill_cost_estimate b) ->
  (forall r, In r (costs db) -> cost_bill r = bill_pk b -> validated (percentage r)) ->
  exists db',
    Bill_save db b = Ok db'
    /\ get bill_pk (bills db') (bill_pk b)
       = Ok (set_bill_costs b (bill_cost b) (bill_cost_estimate b))
    /\ forall r, In r (costs db') -> dependent b r ->
         cost_cost r = rounded_share (bill_cost b) (percentage r)
         /\ cost_cost_estimate r = rounded_share (bill_cost_estimate b) (percentage r).
Proof.
  intros Ha Hae Hq.
  unfold Bill_save, Bill_save_base, save_base.
  cbn [option_map pre_save_hook post_save_hook bind].
  unfold Bill_store.
  rewrite (db_prep_fits 12 _ ltac:(lia) Ha), (db_prep_fits 12 _ ltac:(lia) Hae).
  cbn [bind].
  set (b0 := set_bill_costs b (bill_cost b) (bill_cost_estimate b)).
  set (db0 := set_bills db (write bill_pk (bills db) b0)).
  assert (Hget : get bill_pk (bills db0) (bill_pk b0) = Ok b0) by apply get_write.
  destruct (Bill_post_save_returns db0 b b0 eq_refl Ha Hae Hget Hq) as (db' & Hpost & Hq').
  exists db'. split; [exact Hpost|].
  assert (Hwf : percentages_stored db0 b0).
  { intros r Hr Hk. exact (proj1 (Hq r Hr Hk)). }
  destruct (Bill_post_save_settles db0 db' b0 b eq_refl Hget Hwf Hpost) as [Hbills Hrows].
  split; [rewrite Hbills; exact Hget|].
  intros r Hr Hdep.
  destruct (Hrows r Hr Hdep) as [(_ & _ & _ & _ & _ & Hup) _].
  exact (up_to_date_rounded b0 r Ha Hae (Hq' r Hr (proj1 Hdep)) Hup).
Qed.

(** C2: for an active bill whose amounts its columns hold and whose
    Cost rows have percentages as validated, [bill.save()] returns, the
    bill is stored, and every EndUserCost and ITPlatformCost row of the
    bill then holds what the Cost pre-save rule of the specification
    derives from the stored bill and the row's percentage.  For a bill
    that is not active the rule gives 0, and the code does not: after
    the save of the example bill with [active=False], its rows hold
    400.00 and 600.00 (estimates 480.00 and 720.00). *)
Theorem Bill_save_inactive_bill_rows_not_zero :
  (forall (db : DB) (b : Bill),
      bill_active b = true ->
      fits 12 (bill_cost b) -> fits 12 (bill_cost_estimate b) ->
      (forall r, In r (costs db) -> cost_bill r = bill_pk b ->
                 validated (percentage r)) ->
      exists db' b',
        Bill_save db b = Ok db'
        /\ get bill_pk (bills db') (bill_pk b) = Ok b'
        /\ bill_cost b' = bill_cost b
        /\ bill_cost_estimate b' = bill_cost_estimate b
        /\ bill_active b' = bill_active b
        /\ forall r, In r (costs db') -> dependent b r ->
             cost_cost r = rule_share b' (bill_cost b') (percentage r)
             /\ cost_cost_estimate r
                = rule_share b' (bill_cost_estimate b') (percentage r))
  /\ (exists db' b',
        Bill_save example_db (example_bill false) = Ok db'
        /\ get bill_pk (bills db') 1 = Ok b'
        /\ bill_active b' = false
        /\ map cost_cost (costs db') = [ mkDecimal 40000 (-2); mkDecimal 60000 (-2) ]
        /\ map cost_cost_estimate (costs db')
           = [ mkDecimal 48000 (-2); mkDecimal 72000 (-2) ]
        /\ forall r, In r (costs db') ->
             dependent b' r
             /\ rule_share b' (bill_cost b') (percentage r) = mkDecimal 0 (-2)
             /\ cost_cost r <> rule_share b' (bill_cost b') (percentage r)).
Proof.
  split.
  - intros db b Hact Ha Hae Hq.
    destruct (Bill_save_valid db b Ha Hae Hq) as (db' & Hsave & Hget & Hrows).
    exists db', (set_bill_costs b (bill_cost b) (bill_cost_estimate b)).
    split; [exact Hsave|]. split; [exact Hget|].
    split; [reflexivity|]. split; [reflexivity|]. split; [reflexivity|].
    intros r Hr Hdep. unfold rule_share.
    cbn [bill_active bill_cost bill_cost_estimate set_bill_costs].
    rewrite Hact. exact (Hrows r Hr Hdep).
  - destruct (Bill_save example_db (example_bill false)) as [db'|e] eqn:Hsave;
      [|vm_compute in Hsave; discriminate Hsave].
    vm_compute in Hsave. injection Hsave as <-.
    eexists. eexists. split; [reflexivity|].
    split; [vm_compute; reflexivity|].
    split; [reflexivity|]. split; [reflexivity|]. split; [reflexivity|].
    intros r Hr. cbn [costs] in Hr.
    destruct Hr as [<-|[<-|[]]];
      (split; [split; [reflexivity | discriminate]|]);
      (split; [reflexivity | intros E; vm_compute in E; discriminate E]).
Qed.

Lemma Bill_save_inactive_bill_rows_not_zero_witness :
  exists db' b',
    Bill_save stale_db repriced_bill = Ok db'
    /\ get bill_pk (bills db') 1 = Ok b'
    /\ forall r, In r (costs db') -> dependent repriced_bill r ->
         cost_cost r = rule_share b' (bill_cost b') (percentage r).
Proof.
  destruct (proj1 Bill_save_inactive_bill_rows_not_zero stale_db repriced_bill)
    as (db' & b' & Hsave & Hget & _ & _ & _ & Hrows).
  - reflexivity.
  - split; [reflexivity | vm_compute; reflexivity].
  - split; [reflexivity | vm_compute; reflexivity].
  - intros r Hr _. simpl in Hr.
    destruct Hr as [<-|[<-|[]]]; (split; [reflexivity | simpl; lia]).
  - exists db', b'. split; [exact Hsave|]. split; [exact Hget|].
    intros r Hr Hdep. exact (proj1 (Hrows r Hr Hdep)).
Defined.



